(** * Dockhand container update task: a shallow embedding and its properties

    The development follows three source files:
    - [src/routes/api/self-update/progress/+server.ts]  (module [Progress]),
    - [src/routes/api/self-update/check/+server.ts]     (module [SelfCheck]),
    - [src/lib/server/scheduler/tasks/container-update.ts] (module [Update]).

    JavaScript values are modelled as the code uses them: numbers as [Z],
    byte arrays as [list byte], strings as [string] (or lists of code units
    where the text comes out of a decoder), objects used as dictionaries as
    [gmap], and asynchronous calls to the engine as state-passing functions
    that either return or throw. *)

From stdpp Require Import gmap strings list pretty.
From Stdlib Require Import ZArith Lia.
From Stdlib.Strings Require Import Byte Ascii.

Local Open Scope Z_scope.

(** ** Log multiplexing headers ([stripDockerLogHeaders]) *)

Module Progress.

(** A decoded JavaScript string: its sequence of code units. *)
Definition jsstring := list Z.

Definition byte_val (b : byte) : Z := Z.of_N (Byte.to_N b).

(** ToInt32 of a number that is already an integer. *)
Definition wrap32 (z : Z) : Z := (z + 2147483648) mod 4294967296 - 2147483648.

(** [raw[i]]: an element, or [undefined] (here [None]) outside the array. *)
Definition read (raw : list byte) (i : Z) : option Z :=
  if i <? 0 then None else byte_val <$> raw !! Z.to_nat i.

(** [x <= 2] where [x] may be [undefined]: the comparison with NaN is false. *)
Definition le2 (x : option Z) : bool :=
  match x with Some v => v <=? 2 | None => false end.

(** ToInt32 of an array element; [undefined] converts to 0. *)
Definition toInt32 (x : option Z) : Z :=
  match x with Some v => wrap32 v | None => 0 end.

(** [x << k] and [a | b] on 32-bit signed integers. *)
Definition shl32 (x : option Z) (k : Z) : Z := wrap32 (Z.shiftl (toInt32 x) k).
Definition or32 (a b : Z) : Z := wrap32 (Z.lor a b).

Definition len (raw : list byte) : Z := Z.of_nat (length raw).

(** [raw.slice(a, b)] and [raw.slice(a)] for non-negative bounds. *)
Definition slice (raw : list byte) (a b : Z) : list byte :=
  take (Z.to_nat (b - a)) (drop (Z.to_nat a) raw).
Definition slice_from (raw : list byte) (a : Z) : list byte :=
  drop (Z.to_nat a) raw.

(** [s.split('\n')]: always at least one piece. *)
Fixpoint split_nl (s : jsstring) : list jsstring :=
  match s with
  | [] => [[]]
  | c :: s' =>
      if c =? 10 then [] :: split_nl s'
      else match split_nl s' with
           | [] => [[c]]
           | l :: ls => (c :: l) :: ls
           end
  end.

(** ECMAScript WhiteSpace and LineTerminator code units, the ones
    [String.prototype.trim] removes. *)
Definition isWhiteSpace (c : Z) : bool :=
  (c =? 9) || (c =? 10) || (c =? 11) || (c =? 12) || (c =? 13) || (c =? 32)
  || (c =? 160) || (c =? 5760) || ((8192 <=? c) && (c <=? 8202))
  || (c =? 8232) || (c =? 8233) || (c =? 8239) || (c =? 8287)
  || (c =? 12288) || (c =? 65279).

(** Truthiness of [line.trim()]: some code unit is not white space. *)
Definition trim_truthy (line : jsstring) : bool :=
  negb (forallb isWhiteSpace line).

(** [lines.join('\n')]. *)
Fixpoint join_nl (ls : list jsstring) : jsstring :=
  match ls with
  | [] => []
  | [l] => l
  | l :: ls' => l ++ 10 :: join_nl ls'
  end.

(** What one pass through the loop body touches in [raw]. *)
Inductive Access :=
| Index (i : Z)
| Range (a b : Z).

Definition in_bounds (raw : list byte) (x : Access) : Prop :=
  match x with
  | Index i => 0 <= i < len raw
  | Range a b => 0 <= a /\ a <= b /\ b <= len raw
  end.

(** The outcome of one pass through the body of the [while] loop. *)
Inductive Step :=
| Frame (size : Z) (payload : list byte)   (* a frame was consumed, [continue] *)
| Rest (payload : list byte).              (* fallback, [break] *)

Section Decoder.

(** [new TextDecoder().decode(bytes)], a platform function. *)
Variable decode : list byte -> jsstring.

(** The [for (const line of ...) if (line.trim()) lines.push(line)] loops. *)
Definition push_lines (lines : list jsstring) (text : jsstring) : list jsstring :=
  lines ++ filter (fun l => trim_truthy l = true) (split_nl text).

(** The loop body at a given [offset], with the accesses it makes. *)
Definition step (raw : list byte) (offset : Z) : Step * list Access :=
  let fallback acc := (Rest (slice_from raw offset), acc ++ [Range offset (len raw)]) in
  if offset + 8 <=? len raw then
    let streamType := read raw offset in
    if le2 streamType then
      let size :=
        or32 (or32 (or32 (shl32 (read raw (offset + 4)) 24)
                         (shl32 (read raw (offset + 5)) 16))
                   (shl32 (read raw (offset + 6)) 8))
             (toInt32 (read raw (offset + 7))) in
      let acc := [Index offset; Index (offset + 4); Index (offset + 5);
                  Index (offset + 6); Index (offset + 7)] in
      if (0 <? size) && (offset + 8 + size <=? len raw) then
        (Frame size (slice raw (offset + 8) (offset + 8 + size)),
         acc ++ [Range (offset + 8) (offset + 8 + size)])
      else fallback acc
    else fallback [Index offset]
  else fallback [].

(** The [while (offset < raw.length)] loop; [None] when the fuel runs out. *)
Fixpoint strip_loop (fuel : nat) (raw : list byte) (offset : Z)
    (lines : list jsstring) (acc : list Access)
    : option (list jsstring * list Access) :=
  match fuel with
  | O => None
  | S fuel' =>
      if offset <? len raw then
        match step raw offset with
        | (Frame size payload, a) =>
            strip_loop fuel' raw (offset + 8 + size)
                       (push_lines lines (decode payload)) (acc ++ a)
        | (Rest payload, a) =>
            Some (push_lines lines (decode payload), acc ++ a)
        end
      else Some (lines, acc)
  end.

Definition stripDockerLogHeaders_run (fuel : nat) (raw : list byte)
    : option (jsstring * list Access) :=
  match strip_loop fuel raw 0 [] [] with
  | Some (lines, acc) => Some (join_nl lines, acc)
  | None => None
  end.

(** Fuel that always suffices: one pass per byte and one to leave the loop. *)
Definition stripDockerLogHeaders (raw : list byte) : option jsstring :=
  fst <$> stripDockerLogHeaders_run (S (length raw)) raw.

(** The pieces of [raw] that get decoded, by the words of the header
    comment: complete frames from [offset] on, then whatever remains. *)
Fixpoint chunks (fuel : nat) (raw : list byte) (offset : Z) : list (list byte) :=
  match fuel with
  | O => []
  | S fuel' =>
      if offset <? len raw then
        match fst (step raw offset) with
        | Frame size payload => payload :: chunks fuel' raw (offset + 8 + size)
        | Rest payload => [payload]
        end
      else []
  end.

Definition kept_lines (pieces : list (list byte)) : list jsstring :=
  filter (fun l => trim_truthy l = true)
         (concat (map (fun p => split_nl (decode p)) pieces)).

End Decoder.

(** A decoder for examples: one code unit per byte (exact on ASCII). *)
Definition latin1 (bs : list byte) : jsstring := map byte_val bs.

End Progress.

(** ** The container update task ([container-update.ts]) *)

Module Update.

Local Open Scope string_scope.

(** *** Values exchanged with the collaborators *)

Definition ImageId := string.
Definition ContainerId := string.

(** An awaited call either resolves with a value or rejects with an error
    whose [message] is the string carried here. *)
Inductive Outcome (A : Type) :=
| Returns (a : A)
| Throws (message : string).
Arguments Returns {A} a.
Arguments Throws {A} message.

(** JavaScript truthiness of a possibly undefined string. *)
Definition truthy (s : option string) : bool :=
  match s with
  | Some s => negb (String.eqb s "")
  | None => false
  end.

(** [s || d] for a possibly undefined string. *)
Definition or_default (s : option string) (d : string) : string :=
  match s with
  | Some v => if String.eqb v "" then d else v
  | None => d
  end.

(** [s || undefined]. *)
Definition or_undefined (s : option string) : option string :=
  if truthy s then s else None.

Definition dquote : string := String (Ascii.ascii_of_nat 34) EmptyString.

Record VulnerabilitySeverity := {
  critical : Z;
  high : Z;
  medium : Z;
  low : Z;
  negligible : Z;
  unknown : Z
}.

Inductive SeverityTier := TierCritical | TierHigh | TierMedium | TierLow.

(** The configured criterion. The code names ['never'] and
    ['more_than_current']; the others are the specification's. *)
Inductive VulnerabilityCriteria :=
| never
| any_known
| threshold (t : SeverityTier)
| more_than_current.

Record ScanResult := {
  imageName : string;
  scanner : string;
  scannedAt : string;
  summary : VulnerabilitySeverity;
  scan_error : option string
}.

Record ScanProgress := {
  progress_scanner : option string;
  progress_message : option string;
  progress_output : option string
}.

Record GateResult := { blocked : bool; reason : string }.

Record ContainerSummary := { id : ContainerId; name : string }.

Record IPAMConfig := {
  IPv4Address : option string;
  IPv6Address : option string
}.

Record NetConf := {
  Aliases : option (list string);
  DNSNames : option (list string);
  IPAM : option IPAMConfig;
  GwPriority : option Z
}.

Record ConfigData := {
  Config_Image : option string;
  Config_Labels : option (gmap string string)
}.

Record InspectData := {
  Config : option ConfigData;
  Image : ImageId;
  State_Running : bool;
  HostConfig_NetworkMode : option string;
  Networks : list (string * NetConf)   (* Object.entries order *)
}.

Record DeviceRequest := {
  dr_driver : option string;
  dr_count : Z;
  dr_capabilities : list (list string)
}.

(** The part of [extractContainerOptions]'s result that this file reads. *)
Record ContainerOptions := {
  networkAliases : list string;
  networkIpv4Address : option string;
  macAddress : option string;
  networkGwPriority : option Z;
  extraHosts : list string;
  deviceRequests : list DeviceRequest
}.

Record RegistryCheck := {
  isLocalImage : bool;
  rc_error : option string;
  hasUpdate : bool;
  registryDigest : option string
}.

Record ComposeFileResult := { cf_success : bool; cf_content : option string }.

Record StackResult := {
  sr_success : bool;
  sr_output : option string;
  sr_error : option string
}.

Record NetworkInfo := {
  ni_name : string;
  ni_aliases : list string;
  ni_ipv4Address : option string;
  ni_ipv6Address : option string;
  ni_gwPriority : option Z
}.

(** *** The execution ledger *)

Inductive ExecStatus := running | success | failed | skipped.

Record ScannerCounts := { sc_scanner : string; sc_counts : VulnerabilitySeverity }.

Record ContainerEntry := {
  ce_name : string;
  ce_status : string;
  ce_blockReason : option string;
  ce_scannerResults : option (list ScannerCounts)
}.

Record ScanResultDetails := {
  srd_summary : VulnerabilitySeverity;
  srd_scanners : list string;
  srd_scannedAt : option string;
  srd_scannerResults : list ScannerCounts
}.

Record Details := {
  d_mode : option string;
  d_reason : option string;
  d_blockReason : option string;
  d_newDigest : option string;
  d_vulnerabilityCriteria : option VulnerabilityCriteria;
  d_summary : option (Z * Z * Z * Z);        (* checked, updated, blocked, failed *)
  d_containers : list ContainerEntry;
  d_scanResult : option ScanResultDetails
}.

(** The fields one [updateScheduleExecution] call sets. Time stamps and
    durations are left out; [startedAt] is a write without status. *)
Record ExecUpdate := {
  u_status : option ExecStatus;
  u_errorMessage : option string;
  u_details : option Details
}.

Definition reason_only (r : string) : Details :=
  {| d_mode := None; d_reason := Some r; d_blockReason := None;
     d_newDigest := None; d_vulnerabilityCriteria := None; d_summary := None;
     d_containers := []; d_scanResult := None |}.

Definition started : ExecUpdate :=
  {| u_status := None; u_errorMessage := None; u_details := None |}.
Definition failed_with (msg : string) : ExecUpdate :=
  {| u_status := Some failed; u_errorMessage := Some msg; u_details := None |}.
Definition skipped_with (d : Details) : ExecUpdate :=
  {| u_status := Some skipped; u_errorMessage := None; u_details := Some d |}.
Definition success_with (d : Details) : ExecUpdate :=
  {| u_status := Some success; u_errorMessage := None; u_details := Some d |}.

(** *** The engine and what a run leaves behind *)

Inductive ContainerState := Created | Up | Exited.

(** Modelled from the spec: the engine's image and container store (the
    engine client [docker.ts] is not among the sources). Section 6 lists the
    operations; a tag is "the mutable name-to-image-id pointer", keyed here
    by its (repository, tag) pair. *)
Record Docker := {
  tags : gmap (string * string) ImageId;
  images : gset ImageId;
  containers : gmap ContainerId ContainerState
}.

Inductive Call :=
| CLastChecked (container : string)
| CListContainers
| CInspectContainer (c : ContainerId)
| CGetScannerSettings
| CGetAutoUpdateSetting
| CCheckImageUpdateAvailable (image : string) (current : ImageId)
| CPullImage (image : string)
| CGetImageIdByTag (image : string)
| CTagImage (image : ImageId) (repo tag : string)
| CScanImage (target : string)
| CSaveVulnerabilityScan (image : ImageId) (scanner : string)
| CGetCombinedScan (image : ImageId)
| CRemoveTempImage (ref : string)
| CSendEventNotification (event : string)
| CGetStackComposeFile (stack : string)
| CStartStack (stack : string)
| CStopContainer (c : ContainerId)
| CRemoveContainer (c : ContainerId)
| CCreateContainer
| CConnectNetwork (network : string) (c : ContainerId) (info : NetworkInfo)
| CStart (c : ContainerId)
| CLastUpdated (container : string).

(** What an observer of one run sees, in order: ledger writes (the ones the
    ledger accepted, and the attempts it rejected), log lines, calls to the
    collaborators with whether they returned, and the verdict of the gate at
    the point where the code reads it. *)
Inductive Event :=
| ECreateExecution
| EUpdateExecution (u : ExecUpdate)
| ELog (line : string)
| ECall (c : Call) (returned : bool)
| EGate (g : GateResult)
| ECreateRejected                      (* [createScheduleExecution] rejected *)
| EUpdateRejected (u : ExecUpdate).    (* an [updateScheduleExecution] rejected *)

Record World := { docker : Docker; trace : list Event }.

(** *** Control: values, [return], exceptions *)

Inductive Ctl (A : Type) :=
| Val (a : A)           (* the statement completed *)
| Ret                   (* a [return;] was executed *)
| Exc (message : string).  (* an exception is propagating *)
Arguments Val {A} a.
Arguments Ret {A}.
Arguments Exc {A} message.

Definition M (A : Type) : Type := World -> Ctl A * World.

Definition ret {A} (a : A) : M A := fun w => (Val a, w).
Definition bind {A B} (m : M A) (k : A -> M B) : M B :=
  fun w =>
    match m w with
    | (Val a, w') => k a w'
    | (Ret, w') => (Ret, w')
    | (Exc e, w') => (Exc e, w')
    end.
Definition return_ {A} : M A := fun w => (Ret, w).
Definition throw {A} (message : string) : M A := fun w => (Exc message, w).

(** [try { body } catch (e) { handler }]: a [return] passes through. *)
Definition try_catch {A} (body : M A) (handler : string -> M A) : M A :=
  fun w =>
    match body w with
    | (Exc e, w') => handler e w'
    | r => r
    end.

Declare Scope update_scope.
Delimit Scope update_scope with update.
Notation "'let*' x ':=' m 'in' k" := (bind m (fun x => k))
  (at level 10, x name, m at level 100, k at level 200) : update_scope.
Notation "m '>>' k" := (bind m (fun _ => k))
  (at level 100, k at level 200, right associativity) : update_scope.
Local Open Scope update_scope.

Definition emit (e : Event) : M unit :=
  fun w => (Val tt, {| docker := docker w; trace := trace w ++ [e] |}).

(** The [log] closure: console output and [appendScheduleExecutionLog]. *)
Definition log (line : string) : M unit := emit (ELog line).

(** The places where the task awaits [updateScheduleExecution], by line:
    69, 88, 103, 119, 131, 191, 203, 214, 363, 421, 442, 459, 497, 547. *)
Inductive WriteSite :=
| AtStarted | AtNotFound | AtNoImage | AtSystem | AtPinned
| AtLocal | AtRegistryError | AtUpToDate
| AtBlocked | AtScanFailed | AtSafePullFailed | AtPullFailed
| AtSuccess | AtFailed.

(** [await createScheduleExecution(...)]: the record exists once it returns. *)
Definition createScheduleExecution (out : Outcome unit) : M unit :=
  fun w =>
    match out with
    | Returns _ =>
        (Val tt, {| docker := docker w; trace := trace w ++ [ECreateExecution] |})
    | Throws e =>
        (Exc e, {| docker := docker w; trace := trace w ++ [ECreateRejected] |})
    end.

(** [await updateScheduleExecution(execution.id, u)]: the ledger takes the
    write, or the call rejects and the record stays as it was. *)
Definition updateScheduleExecution (u : ExecUpdate) (out : Outcome unit) : M unit :=
  fun w =>
    match out with
    | Returns _ =>
        (Val tt, {| docker := docker w; trace := trace w ++ [EUpdateExecution u] |})
    | Throws e =>
        (Exc e, {| docker := docker w; trace := trace w ++ [EUpdateRejected u] |})
    end.

(** A call to a collaborator: recorded, then its effect on the engine when
    it returns, or the exception when it throws. *)
Definition call {A} (c : Call) (o : Outcome A) (effect : A -> Docker -> Docker)
    : M A :=
  fun w =>
    match o with
    | Returns a =>
        (Val a, {| docker := effect a (docker w);
                   trace := trace w ++ [ECall c true] |})
    | Throws e =>
        (Exc e, {| docker := docker w; trace := trace w ++ [ECall c false] |})
    end.

Definition no_effect {A} (_ : A) (d : Docker) : Docker := d.

Fixpoint for_each {A} (xs : list A) (body : A -> M unit) : M unit :=
  match xs with
  | [] => ret tt
  | x :: xs' => body x >> for_each xs' body
  end.

Definition when (b : bool) (m : M unit) : M unit := if b then m else ret tt.

(** *** Effects of the engine operations

    Modelled from the spec: section 6 names the operations (pull image, tag
    image, remove image, create, start, stop and remove container); their
    effect on the store is the one sections 4.2 and 4.4 rely on. *)

Definition with_tags (f : gmap (string * string) ImageId -> gmap (string * string) ImageId)
    (d : Docker) : Docker :=
  {| tags := f (tags d); images := images d; containers := containers d |}.

Definition with_containers
    (f : gmap ContainerId ContainerState -> gmap ContainerId ContainerState)
    (d : Docker) : Docker :=
  {| tags := tags d; images := images d; containers := f (containers d) |}.

(** Pulling [repo:tag] stores the image and moves the tag to it. *)
Definition pull_effect (key : string * string) (new : ImageId) (d : Docker) : Docker :=
  {| tags := <[key := new]> (tags d);
     images := {[new]} ∪ images d;
     containers := containers d |}.

(** Tagging re-points [repo:tag] to an image. *)
Definition tag_effect (key : string * string) (image : ImageId) (d : Docker) : Docker :=
  with_tags (insert key image) d.

(** Removing an image by its id deletes it with every tag that resolves
    to it. *)
Definition remove_image_effect (image : ImageId) (d : Docker) : Docker :=
  {| tags := filter (fun kv => kv.2 ≠ image) (tags d);
     images := images d ∖ {[image]};
     containers := containers d |}.

(** Removing by tag deletes the tag, and the image once no tag is left. *)
Definition untag_effect (key : string * string) (d : Docker) : Docker :=
  match tags d !! key with
  | Some image =>
      let rest := delete key (tags d) in
      {| tags := rest;
         images := if decide (image ∈ (map_img rest : gset ImageId))
                   then images d else images d ∖ {[image]};
         containers := containers d |}
  | None => d
  end.

Definition stop_effect (c : ContainerId) (d : Docker) : Docker :=
  with_containers (fun cs => match cs !! c with
                             | Some _ => <[c := Exited]> cs
                             | None => cs
                             end) d.
Definition remove_container_effect (c : ContainerId) (d : Docker) : Docker :=
  with_containers (delete c) d.
Definition create_effect (c : ContainerId) (d : Docker) : Docker :=
  with_containers (insert c Created) d.
Definition start_effect (c : ContainerId) (d : Docker) : Docker :=
  with_containers (insert c Up) d.

(** *** The helpers and the collaborators of a run *)

(** The pure helpers imported from [./update-utils] and [../../docker],
    which are not among the sources: they are parameters of the task. *)
Record Helpers := {
  isSystemContainer : string -> option string;
  isDigestBasedImage : string -> bool;
  getTempImageTag : string -> string;
  parseImageNameAndTag : string -> string * string;
  shouldBlockUpdate :
    VulnerabilityCriteria -> VulnerabilitySeverity ->
    option VulnerabilitySeverity -> GateResult;
  combineScanSummaries : list ScanResult -> VulnerabilitySeverity;
  extractContainerOptions : InspectData -> ContainerOptions
}.

(** How each collaborator answers during one run, one field per call site
    (per element for the calls made in a loop, per site for the writes to
    the execution ledger). The log closure is not awaited: it only adds
    lines. *)
Record Oracle := {
  o_createExecution : Outcome unit;
  o_write : WriteSite -> Outcome unit;
  o_lastChecked : Outcome unit;
  o_listContainers : Outcome (list ContainerSummary);
  o_inspect : Outcome InspectData;
  o_scannerSettings : Outcome string;                       (* [.scanner] *)
  o_updateSetting : Outcome (option VulnerabilityCriteria); (* [?.vulnerabilityCriteria] *)
  o_registryCheck : Outcome RegistryCheck;
  o_pull : Outcome ImageId;            (* the image the registry delivers *)
  o_getImageId : Outcome bool;         (* [false]: the lookup answers [null] *)
  o_tagRestore : Outcome unit;
  o_tagTemp : Outcome unit;
  o_scanProgress : list ScanProgress;
  o_scan : Outcome (list ScanResult);
  o_save : nat -> Outcome unit;
  o_cachedScan : Outcome (option VulnerabilitySeverity);
  o_scanCurrentProgress : list ScanProgress;
  o_scanCurrent : Outcome (list ScanResult);
  o_saveCurrent : nat -> Outcome unit;
  o_removeBlocked : Outcome unit;
  o_notifyBlocked : Outcome unit;
  o_removeAfterScanError : Outcome unit;
  o_tagPromote : Outcome unit;
  o_removeTempTag : Outcome unit;
  o_composeFile : Outcome ComposeFileResult;
  o_startStack : Outcome StackResult;
  o_recreateList : Outcome (list ContainerSummary);
  o_recreateInspect : Outcome InspectData;
  o_stop : Outcome unit;
  o_removeContainer : Outcome unit;
  o_create : Outcome ContainerId;      (* the id of the new container *)
  o_connect : string -> Outcome unit;  (* by network name *)
  o_start : Outcome unit;
  o_lastUpdated : Outcome unit;
  o_notifySuccess : Outcome unit;
  o_notifyFailed : Outcome unit
}.

(** *** Small pieces used by the task *)

Definition show_undefined (s : option string) : string :=
  match s with Some v => v | None => "undefined" end.

Definition show_tier (t : SeverityTier) : string :=
  match t with
  | TierCritical => "critical"
  | TierHigh => "high"
  | TierMedium => "medium"
  | TierLow => "low"
  end.

Definition show_criteria (c : VulnerabilityCriteria) : string :=
  match c with
  | never => "never"
  | any_known => "any"
  | threshold t => show_tier t
  | more_than_current => "more_than_current"
  end.

Definition show_bool (b : bool) : string := if b then "true" else "false".

Definition nonempty {A} (l : list A) : bool :=
  match l with [] => false | _ => true end.

Definition includes (l : list string) (x : string) : bool :=
  existsb (String.eqb x) l.

(** [s.split('\n')] and the truthiness of [l.trim()] on strings. *)
Fixpoint split_newline (s : string) : list string :=
  match s with
  | EmptyString => [EmptyString]
  | String c s' =>
      if Ascii.eqb c (Ascii.ascii_of_nat 10) then EmptyString :: split_newline s'
      else match split_newline s' with
           | [] => [String c EmptyString]
           | l :: ls => String c l :: ls
           end
  end.

(** The code units [String.prototype.trim] removes, among those a string
    of this development can hold (below 256): tab, line feed, vertical tab,
    form feed, carriage return, space and no-break space. *)
Definition is_space (c : Ascii.ascii) : bool :=
  let n := Ascii.nat_of_ascii c in
  ((9 <=? n) && (n <=? 13) || (n =? 32) || (n =? 160))%nat.

Fixpoint trim_truthy (s : string) : bool :=
  match s with
  | EmptyString => false
  | String c s' => negb (is_space c) || trim_truthy s'
  end.

Definition find_container (name_ : string) (cs : list ContainerSummary)
    : option ContainerSummary :=
  List.find (fun c => String.eqb (name c) name_) cs.

Definition label (config : option ConfigData) (key : string) : option string :=
  match config with
  | Some c => match Config_Labels c with
              | Some labels => labels !! key
              | None => None
              end
  | None => None
  end.

Definition scanner_counts (rs : list ScanResult) : list ScannerCounts :=
  map (fun r => {| sc_scanner := scanner r; sc_counts := summary r |}) rs.

Fixpoint enumerate_from {A} (i : nat) (l : list A) : list (nat * A) :=
  match l with
  | [] => []
  | x :: l' => (i, x) :: enumerate_from (S i) l'
  end.

Definition is_terminal (e : Event) : bool :=
  match e with
  | EUpdateExecution u =>
      match u_status u with
      | Some success | Some failed | Some skipped => true
      | _ => false
      end
  | _ => false
  end.

(** The terminal writes of a trace, in order, and the status the ledger
    record ends with. *)
Definition terminal_writes (t : list Event) : list ExecUpdate :=
  omap (fun e => match e with
                 | EUpdateExecution u => if is_terminal e then Some u else None
                 | _ => None
                 end) t.

Definition final_status (t : list Event) : option ExecStatus :=
  match last (terminal_writes t) with
  | Some u => u_status u
  | None => Some running
  end.

Definition calls (t : list Event) : list Call :=
  omap (fun e => match e with ECall c _ => Some c | _ => None end) t.

Definition returned_calls (t : list Event) : list Call :=
  omap (fun e => match e with ECall c true => Some c | _ => None end) t.

(** *** [recreateContainer], [updateStackContainer], [runContainerUpdate] *)

Section Task.

Variable h : Helpers.
Variable o : Oracle.
Variable containerName : string.

Definition tag_key (image : string) : string * string :=
  parseImageNameAndTag h image.

Definition pullImage (image : string) : M ImageId :=
  call (CPullImage image) (o_pull o) (pull_effect (tag_key image)).

(** The id the tag resolves to, or [null]. *)
Definition getImageIdByTag (image : string) : M (option ImageId) :=
  fun w =>
    match call (CGetImageIdByTag image) (o_getImageId o) no_effect w with
    | (Val found, w') =>
        (Val (if found then tags (docker w') !! tag_key image else None), w')
    | (Ret, w') => (Ret, w')
    | (Exc e, w') => (Exc e, w')
    end.

Definition tagImage (image : ImageId) (repo tag : string) (out : Outcome unit)
    : M unit :=
  call (CTagImage image repo tag) out (fun _ => tag_effect (repo, tag) image).

(** [removeTempImage(newImageId, envId)]: the argument is an image id. *)
Definition removeTempImage (image : ImageId) (out : Outcome unit) : M unit :=
  call (CRemoveTempImage image) out (fun _ => remove_image_effect image).

(** [removeTempImage(tempTag, envId)]: the argument is a tag. *)
Definition removeTempTag (tempTag : string) (out : Outcome unit) : M unit :=
  call (CRemoveTempImage tempTag) out (fun _ => untag_effect (tag_key tempTag)).

Definition sendEventNotification (event : string) (out : Outcome unit) : M unit :=
  call (CSendEventNotification event) out no_effect.

(** [scanImage] with its progress callback. *)
Definition scanImage (target : string) (progress : list ScanProgress)
    (out : Outcome (list ScanResult)) (onProgress : ScanProgress -> M unit)
    : M (list ScanResult) :=
  for_each progress onProgress >> call (CScanImage target) out no_effect.

(** One pass of the two [for (const result of ...)] loops that store scan
    results; [warn] tells the first (which logs a warning) from the second. *)
Definition save_scan (image : ImageId) (out : nat -> Outcome unit) (warn : bool)
    (ir : nat * ScanResult) : M unit :=
  try_catch
    (call (CSaveVulnerabilityScan image (scanner ir.2)) (out ir.1) no_effect)
    (fun e => when warn (log ("Warning: Could not save scan results: " ++ e))).

Definition save_scans (image : ImageId) (results : list ScanResult)
    (out : nat -> Outcome unit) (warn : bool) : M unit :=
  for_each (enumerate_from 0 results) (save_scan image out warn).

Definition secondary_aliases (c : ContainerSummary) (config : ConfigData)
    (netConf : NetConf) : list string :=
  let shortContainerId := String.substring 0 12 (id c) in
  let source :=
    match Aliases netConf with
    | Some (a :: l) => a :: l
    | _ => match DNSNames netConf with Some d => d | None => [] end
    end in
  let secondaryAliases :=
    List.filter (fun a => negb (String.eqb a (id c))
                          && negb (String.eqb a shortContainerId)) source in
  let composeProject := label (Some config) "com.docker.compose.project" in
  let composeService := label (Some config) "com.docker.compose.service" in
  if truthy composeProject && truthy composeService then
    let service := show_undefined composeService in
    let withService :=
      if includes secondaryAliases service then secondaryAliases
      else (secondaryAliases ++ [service])%list in
    let projectService := show_undefined composeProject ++ "-" ++ service in
    if includes withService projectService then withService
    else (withService ++ [projectService])%list
  else secondaryAliases.

Definition is_primary (primaryNetwork netName : string) : bool :=
  String.eqb netName primaryNetwork
  || (String.eqb primaryNetwork "bridge"
      && (String.eqb netName "bridge" || String.eqb netName "default")).

Definition network_info (c : ContainerSummary) (config : ConfigData)
    (entry : string * NetConf) : NetworkInfo :=
  let netConf := entry.2 in
  {| ni_name := entry.1;
     ni_aliases := secondary_aliases c config netConf;
     ni_ipv4Address :=
       or_undefined (match IPAM netConf with Some i => IPv4Address i | None => None end);
     ni_ipv6Address :=
       or_undefined (match IPAM netConf with Some i => IPv6Address i | None => None end);
     ni_gwPriority :=
       match GwPriority netConf with
       | Some g => if (g =? 0)%Z then None else Some g
       | None => None
       end |}.

(** The secondary networks, in the order of [Object.entries]. *)
Definition additional_networks (c : ContainerSummary) (config : ConfigData)
    (inspectData : InspectData) : list NetworkInfo :=
  let primaryNetwork := or_default (HostConfig_NetworkMode inspectData) "bridge" in
  map (network_info c config)
      (List.filter (fun e => negb (is_primary primaryNetwork e.1))
                   (Networks inspectData)).

Definition log_primary (opts : ContainerOptions) : M unit :=
  when (nonempty (networkAliases opts))
       (log ("Primary network aliases: " ++ String.concat ", " (networkAliases opts))) >>
  when (truthy (networkIpv4Address opts))
       (log ("Primary network static IPv4: " ++ show_undefined (networkIpv4Address opts))) >>
  when (truthy (macAddress opts))
       (log ("Primary network MAC address: " ++ show_undefined (macAddress opts))) >>
  match networkGwPriority opts with
  | Some g => log ("Primary network gateway priority: " ++ pretty g)
  | None => ret tt
  end.

Definition log_device_request (dr : DeviceRequest) : M unit :=
  let caps := or_default (Some (String.concat "," (concat (dr_capabilities dr)))) "none" in
  log ("Device request: driver=" ++ or_default (dr_driver dr) "default"
       ++ ", count=" ++ pretty (dr_count dr) ++ ", capabilities=[" ++ caps ++ "]").

Definition connect_warning (netInfo : NetworkInfo) (e : string) : string :=
  "  Warning: Failed to connect to network " ++ dquote
  ++ ni_name netInfo ++ dquote ++ ": " ++ e.

(** One pass of the reconnection loop, with its own [try]/[catch]. *)
Definition reconnect (new : ContainerId) (netInfo : NetworkInfo) : M unit :=
  try_catch
    (call (CConnectNetwork (ni_name netInfo) new netInfo)
          (o_connect o (ni_name netInfo)) no_effect >>
     log ("  Connected to: " ++ ni_name netInfo) >>
     when (nonempty (ni_aliases netInfo))
          (log ("    Aliases: " ++ String.concat ", " (ni_aliases netInfo))) >>
     when (truthy (ni_ipv4Address netInfo))
          (log ("    Static IPv4: " ++ show_undefined (ni_ipv4Address netInfo))) >>
     match ni_gwPriority netInfo with
     | Some g => log ("    Gateway priority: " ++ pretty g)
     | None => ret tt
     end)
    (fun e => log (connect_warning netInfo e)).

(** What one pass of the reconnection loop leaves in the trace. *)
Definition reconnect_events (new : ContainerId) (netInfo : NetworkInfo)
    : list Event :=
  match o_connect o (ni_name netInfo) with
  | Returns _ =>
      ([ECall (CConnectNetwork (ni_name netInfo) new netInfo) true;
        ELog ("  Connected to: " ++ ni_name netInfo)]
       ++ (if nonempty (ni_aliases netInfo)
           then [ELog ("    Aliases: " ++ String.concat ", " (ni_aliases netInfo))]
           else [])
       ++ (if truthy (ni_ipv4Address netInfo)
           then [ELog ("    Static IPv4: " ++ show_undefined (ni_ipv4Address netInfo))]
           else [])
       ++ match ni_gwPriority netInfo with
          | Some g => [ELog ("    Gateway priority: " ++ pretty g)]
          | None => []
          end)%list
  | Throws e =>
      [ECall (CConnectNetwork (ni_name netInfo) new netInfo) false;
       ELog (connect_warning netInfo e)]
  end.

(** The three loops of [recreateContainer]. *)
Definition log_primary_networks (opts : ContainerOptions) (primaryNetwork : string)
    (nets : list (string * NetConf)) : M unit :=
  for_each nets (fun e => when (is_primary primaryNetwork e.1) (log_primary opts)).

Definition log_device_requests (opts : ContainerOptions) : M unit :=
  for_each (deviceRequests opts) log_device_request.

Definition reconnect_all (new : ContainerId) (nets : list NetworkInfo) : M unit :=
  for_each nets (reconnect new).

(** [recreateContainer(containerName, envId, log)]. [State] and
    [HostConfig] are always present in an inspection; reading [Labels] of an
    absent [Config] is the TypeError at the place the code reads it. *)
Definition recreateContainer : M bool :=
  try_catch
    (let* containers := call CListContainers (o_recreateList o) no_effect in
     match find_container containerName containers with
     | None => log ("Container not found: " ++ containerName) >> ret false
     | Some container =>
         let* inspectData :=
           call (CInspectContainer (id container)) (o_recreateInspect o) no_effect in
         let wasRunning := State_Running inspectData in
         log ("Recreating container: " ++ containerName ++ " (was running: "
              ++ show_bool wasRunning ++ ")") >>
         log "Preserving all container settings..." >>
         when wasRunning
              (log "Stopping container..." >>
               call (CStopContainer (id container)) (o_stop o)
                    (fun _ => stop_effect (id container))) >>
         log "Removing old container..." >>
         call (CRemoveContainer (id container)) (o_removeContainer o)
              (fun _ => remove_container_effect (id container)) >>
         let containerOptions := extractContainerOptions h inspectData in
         let primaryNetwork := or_default (HostConfig_NetworkMode inspectData) "bridge" in
         match Config inspectData with
         | None => throw "undefined is not an object (evaluating 'config.Labels')"
         | Some config =>
             let additionalNetworks := additional_networks container config inspectData in
             log_primary_networks containerOptions primaryNetwork
                                  (Networks inspectData) >>
             when (nonempty additionalNetworks)
                  (log ("Will reconnect to " ++ pretty (length additionalNetworks)
                        ++ " additional network(s): "
                        ++ String.concat ", " (map ni_name additionalNetworks))) >>
             when (nonempty (extraHosts containerOptions))
                  (log ("Extra hosts: " ++ String.concat ", " (extraHosts containerOptions))) >>
             log_device_requests containerOptions >>
             log "Creating new container with preserved settings..." >>
             let* newContainer := call CCreateContainer (o_create o) create_effect in
             when (nonempty additionalNetworks)
                  (log ("Reconnecting to " ++ pretty (length additionalNetworks)
                        ++ " additional network(s)...") >>
                   reconnect_all newContainer additionalNetworks) >>
             when wasRunning
                  (log "Starting new container..." >>
                   call (CStart newContainer) (o_start o)
                        (fun _ => start_effect newContainer)) >>
             log "Container recreated successfully with all settings preserved" >>
             ret true
         end
     end)
    (fun e => log ("Failed to recreate container: " ++ e) >> ret false).

Definition updateStackContainer (stackName serviceName : string) : M bool :=
  try_catch
    (log ("Looking up stack configuration for: " ++ stackName) >>
     let* composeResult :=
       call (CGetStackComposeFile stackName) (o_composeFile o) no_effect in
     if negb (cf_success composeResult) || negb (truthy (cf_content composeResult)) then
       log ("WARNING: No compose file found for stack " ++ dquote ++ stackName ++ dquote) >>
       log "This stack may have been created outside Dockhand" >>
       log "Falling back to container recreation (some settings may be lost)" >>
       log "TIP: Import the stack in Dockhand to preserve all settings on future updates" >>
       ret false
     else
       log ("Found compose file for stack: " ++ stackName) >>
       log ("Running: docker compose up -d (service: " ++ serviceName ++ ")") >>
       let* result := call (CStartStack stackName) (o_startStack o) no_effect in
       if sr_success result then
         log "Stack updated successfully via docker compose" >>
         when (truthy (sr_output result))
              (for_each (List.filter trim_truthy
                           (split_newline (show_undefined (sr_output result))))
                        (fun line => log ("[compose] " ++ line))) >>
         ret true
       else
         log ("docker compose up failed: " ++ or_default (sr_error result) "Unknown error") >>
         when (truthy (sr_output result))
              (log ("Output: " ++ show_undefined (sr_output result))) >>
         ret false)
    (fun e => log ("Stack update error: " ++ e) >> ret false).

End Task.

(** *** The task *)

Section Run.

Variable h : Helpers.
Variable o : Oracle.
Variable containerName : string.

Definition scan_tag (p : ScanProgress) : string :=
  match progress_scanner p with
  | Some s => if String.eqb s "" then "[scan]" else "[" ++ s ++ "]"
  | None => "[scan]"
  end.

Definition on_progress (p : ScanProgress) : M unit :=
  when (truthy (progress_message p))
       (log (scan_tag p ++ " " ++ show_undefined (progress_message p))) >>
  when (truthy (progress_output p))
       (log (scan_tag p ++ " " ++ show_undefined (progress_output p))).

Definition on_progress_current (p : ScanProgress) : M unit :=
  when (truthy (progress_message p))
       (log (scan_tag p ++ " " ++ show_undefined (progress_message p))).

(** Lines 307 to 351: the summary of the running image, looked up only for
    the ['more_than_current'] criterion. *)
Definition current_scan_summary (vulnerabilityCriteria : VulnerabilityCriteria)
    (currentImageId : ImageId) : M (option VulnerabilitySeverity) :=
  match vulnerabilityCriteria with
  | more_than_current =>
      log "Looking up cached scan for current image..." >>
      try_catch
        (let* cachedScan :=
           call (CGetCombinedScan currentImageId) (o_cachedScan o) no_effect in
         match cachedScan with
         | Some currentScanSummary =>
             log ("Cached scan: " ++ pretty (critical currentScanSummary)
                  ++ " critical, " ++ pretty (high currentScanSummary) ++ " high") >>
             ret (Some currentScanSummary)
         | None =>
             log "No cached scan found, scanning current image..." >>
             let* currentScanResults :=
               scanImage currentImageId (o_scanCurrentProgress o) (o_scanCurrent o)
                         on_progress_current in
             if nonempty currentScanResults then
               let currentScanSummary := combineScanSummaries h currentScanResults in
               log ("Current image: " ++ pretty (critical currentScanSummary)
                    ++ " critical, " ++ pretty (high currentScanSummary) ++ " high") >>
               save_scans currentImageId currentScanResults (o_saveCurrent o) false >>
               ret (Some currentScanSummary)
             else ret None
         end)
        (fun e => log ("Warning: Could not get current scan: " ++ e) >> ret None)
  | _ => ret None
  end.

Definition blocked_details (vulnerabilityCriteria : VulnerabilityCriteria)
    (reason_ : string) (scanResults : list ScanResult)
    (scanSummary : VulnerabilitySeverity) : Details :=
  {| d_mode := Some "auto_update";
     d_reason := Some "vulnerabilities_found";
     d_blockReason := Some reason_;
     d_newDigest := None;
     d_vulnerabilityCriteria := Some vulnerabilityCriteria;
     d_summary := Some (1, 0, 1, 0);
     d_containers :=
       [{| ce_name := containerName; ce_status := "blocked";
           ce_blockReason := Some reason_;
           ce_scannerResults := Some (scanner_counts scanResults) |}];
     d_scanResult :=
       Some {| srd_summary := scanSummary;
               srd_scanners := map scanner scanResults;
               srd_scannedAt := scannedAt <$> head scanResults;
               srd_scannerResults := scanner_counts scanResults |} |}.

Definition success_details (vulnerabilityCriteria : VulnerabilityCriteria)
    (newDigest : option string) (scanResults : option (list ScanResult))
    (scanSummary : option VulnerabilitySeverity) : Details :=
  {| d_mode := Some "auto_update";
     d_reason := None;
     d_blockReason := None;
     d_newDigest := newDigest;
     d_vulnerabilityCriteria := Some vulnerabilityCriteria;
     d_summary := Some (1, 1, 0, 0);
     d_containers :=
       [{| ce_name := containerName; ce_status := "updated";
           ce_blockReason := None;
           ce_scannerResults := scanner_counts <$> scanResults |}];
     d_scanResult :=
       match scanSummary with
       | Some sm =>
           Some {| srd_summary := sm;
                   srd_scanners := default [] (map scanner <$> scanResults);
                   srd_scannedAt :=
                     match scanResults with
                     | Some (r :: _) => Some (scannedAt r)
                     | _ => None
                     end;
                   srd_scannerResults := default [] (scanner_counts <$> scanResults) |}
       | None => None
       end |}.

(** Lines 266 to 428: scan the parked image and ask the gate. The result is
    the pair ([scanResults], [scanSummary]) the later code reads. *)
Definition scan_and_gate (vulnerabilityCriteria : VulnerabilityCriteria)
    (currentImageId newImageId : ImageId) (tempTag : string)
    : M (list ScanResult * option VulnerabilitySeverity) :=
  log "Scanning new image for vulnerabilities..." >>
  try_catch
    (let* scanResults := scanImage tempTag (o_scanProgress o) (o_scan o) on_progress in
     if nonempty scanResults then
       let scanSummary := combineScanSummaries h scanResults in
       log ("Scan result: " ++ pretty (critical scanSummary) ++ " critical, "
            ++ pretty (high scanSummary) ++ " high, "
            ++ pretty (medium scanSummary) ++ " medium, "
            ++ pretty (low scanSummary) ++ " low") >>
       save_scans newImageId scanResults (o_save o) true >>
       let* currentScanSummary :=
         current_scan_summary vulnerabilityCriteria currentImageId in
       let verdict :=
         shouldBlockUpdate h vulnerabilityCriteria scanSummary currentScanSummary in
       emit (EGate verdict) >>
       if blocked verdict then
         log ("UPDATE BLOCKED: " ++ reason verdict) >>
         log ("Removing blocked image: " ++ tempTag) >>
         removeTempImage newImageId (o_removeBlocked o) >>
         log "Blocked image removed - container will continue using safe image" >>
         updateScheduleExecution
           (skipped_with (blocked_details vulnerabilityCriteria (reason verdict)
                                          scanResults scanSummary))
           (o_write o AtBlocked) >>
         sendEventNotification "auto_update_blocked" (o_notifyBlocked o) >>
         return_
       else
         log "Scan passed vulnerability criteria" >>
         ret (scanResults, Some scanSummary)
     else ret (scanResults, None))
    (fun e =>
       log ("Scan failed: " ++ e) >>
       log "Removing temp image due to scan failure..." >>
       removeTempImage newImageId (o_removeAfterScanError o) >>
       updateScheduleExecution (failed_with ("Vulnerability scan failed: " ++ e))
                               (o_write o AtScanFailed) >>
       return_).

(** Lines 240 to 449: the safe pull under a temporary tag. *)
Definition safe_pull (vulnerabilityCriteria : VulnerabilityCriteria)
    (imageNameFromConfig : string) (currentImageId : ImageId)
    : M (list ScanResult * option VulnerabilitySeverity) :=
  let tempTag := getTempImageTag h imageNameFromConfig in
  log ("Using temp tag for safe pull: " ++ tempTag) >>
  try_catch
    (log ("Pulling new image: " ++ imageNameFromConfig) >>
     pullImage h o imageNameFromConfig >>
     let* newImageId := getImageIdByTag h o imageNameFromConfig in
     match newImageId with
     | None => throw "Failed to get new image ID after pull"
     | Some newImageId =>
         log ("New image pulled: " ++ String.substring 0 19 newImageId) >>
         log "Restoring original tag to current safe image..." >>
         let oldRepo := (parseImageNameAndTag h imageNameFromConfig).1 in
         let oldTag := (parseImageNameAndTag h imageNameFromConfig).2 in
         tagImage currentImageId oldRepo oldTag (o_tagRestore o) >>
         log ("Original tag " ++ imageNameFromConfig ++ " restored to safe image") >>
         let tempRepo := (parseImageNameAndTag h tempTag).1 in
         let tempTagName := (parseImageNameAndTag h tempTag).2 in
         tagImage newImageId tempRepo tempTagName (o_tagTemp o) >>
         log ("New image tagged as: " ++ tempTag) >>
         let* scans :=
           scan_and_gate vulnerabilityCriteria currentImageId newImageId tempTag in
         log ("Re-tagging approved image to: " ++ imageNameFromConfig) >>
         tagImage newImageId oldRepo oldTag (o_tagPromote o) >>
         log "Image ready for update" >>
         try_catch (removeTempTag h tempTag (o_removeTempTag o)) (fun _ => ret tt) >>
         ret scans
     end)
    (fun e =>
       log ("Safe-pull failed: " ++ e) >>
       updateScheduleExecution (failed_with ("Failed to pull image: " ++ e))
                               (o_write o AtSafePullFailed) >>
       return_).

(** Lines 452 to 466: the plain pull when no scanner is configured. *)
Definition simple_pull (imageNameFromConfig : string) : M unit :=
  log "Pulling update (no vulnerability scan)..." >>
  try_catch
    (pullImage h o imageNameFromConfig >> log "Image pulled successfully")
    (fun e =>
       log ("Pull failed: " ++ e) >>
       updateScheduleExecution (failed_with ("Failed to pull image: " ++ e))
                               (o_write o AtPullFailed) >>
       return_).

(** Lines 472 to 492: by compose when the container belongs to a stack,
    by recreation otherwise or as the fallback. *)
Definition update_container (composeProject composeService : option string)
    : M bool :=
  if truthy composeProject then
    log ("Updating via docker compose for stack: " ++ show_undefined composeProject) >>
    let* stackSuccess :=
      updateStackContainer o (show_undefined composeProject)
                           (show_undefined composeService) in
    if stackSuccess then ret true
    else
      log ("Fallback: Recreating container directly (stack " ++ dquote
           ++ show_undefined composeProject ++ dquote ++ " not managed by Dockhand)") >>
      log "WARNING: Some compose-specific settings may not be preserved" >>
      log "Consider importing this stack into Dockhand for full configuration preservation" >>
      recreateContainer h o containerName
  else
    log "Updating standalone container via recreation..." >>
    recreateContainer h o containerName.

(** What the first part of the task establishes about its target. *)
Record Target := {
  t_image : string;                       (* imageNameFromConfig *)
  t_currentImageId : ImageId;
  t_composeProject : option string;
  t_composeService : option string;
  t_scanner : string;                     (* scannerSettings.scanner *)
  t_criteria : VulnerabilityCriteria;
  t_newDigest : option string
}.

(** [Promise.all([getScannerSettings(envId), getAutoUpdateSettingById(settingId)])]:
    both calls are issued, then both are awaited. *)
Definition read_settings : M (string * option VulnerabilityCriteria) :=
  fun w =>
    match call CGetScannerSettings (o_scannerSettings o) no_effect w with
    | (r, w') =>
        match call CGetAutoUpdateSetting (o_updateSetting o) no_effect w' with
        | (Val u, w'') =>
            match r with
            | Val s => (Val (s, u), w'')
            | Ret => (Ret, w'')
            | Exc e => (Exc e, w'')
            end
        | (Ret, w'') => (Ret, w'')
        | (Exc e', w'') =>
            match r with
            | Exc e => (Exc e, w'')
            | _ => (Exc e', w'')
            end
        end
    end.

(** Lines 79 to 223: find the container, rule out what is never updated,
    and ask the registry. It completes only when an update is available. *)
Definition prepare : M Target :=
  log ("Checking container: " ++ containerName) >>
  call (CLastChecked containerName) (o_lastChecked o) no_effect >>
  let* containers := call CListContainers (o_listContainers o) no_effect in
  match find_container containerName containers with
  | None =>
      log ("Container not found: " ++ containerName) >>
      updateScheduleExecution (failed_with "Container not found")
                              (o_write o AtNotFound) >>
      return_
  | Some container =>
      let* inspectData :=
        call (CInspectContainer (id container)) (o_inspect o) no_effect in
      let imageNameFromConfig_ :=
        match Config inspectData with Some c => Config_Image c | None => None end in
      if negb (truthy imageNameFromConfig_) then
        log "Could not determine image name from container config" >>
        updateScheduleExecution (failed_with "Could not determine image name")
                                (o_write o AtNoImage) >>
        return_
      else
        let imageNameFromConfig := show_undefined imageNameFromConfig_ in
        let systemContainerType := isSystemContainer h imageNameFromConfig in
        if truthy systemContainerType then
          let reason_ :=
            if String.eqb (show_undefined systemContainerType) "dockhand"
            then "Cannot auto-update Dockhand itself"
            else "Cannot auto-update Hawser agent" in
          log ("Skipping " ++ show_undefined systemContainerType
               ++ " container - " ++ reason_) >>
          updateScheduleExecution (skipped_with (reason_only reason_))
                                  (o_write o AtSystem) >>
          return_
        else if isDigestBasedImage h imageNameFromConfig then
          log ("Skipping " ++ containerName ++ " - image pinned to specific digest") >>
          updateScheduleExecution
            (skipped_with (reason_only "Image pinned to specific digest"))
            (o_write o AtPinned) >>
          return_
        else
          let currentImageId := Image inspectData in
          log ("Container is using image: " ++ imageNameFromConfig) >>
          log ("Current image ID: " ++ String.substring 0 19 currentImageId) >>
          let composeProject := label (Config inspectData) "com.docker.compose.project" in
          let composeService := label (Config inspectData) "com.docker.compose.service" in
          let isStackContainer := truthy composeProject in
          (if isStackContainer then
             log ("Container is part of compose stack: " ++ show_undefined composeProject
                  ++ " (service: " ++ show_undefined composeService ++ ")")
           else log "Container is standalone (not part of a compose stack)") >>
          let* scannerSettings := read_settings in
          let vulnerabilityCriteria := default never scannerSettings.2 in
          log ("Checking registry for updates: " ++ imageNameFromConfig) >>
          let* registryCheck :=
            call (CCheckImageUpdateAvailable imageNameFromConfig currentImageId)
                 (o_registryCheck o) no_effect in
          if isLocalImage registryCheck then
            log "Local image detected - skipping (auto-update requires registry)" >>
            updateScheduleExecution
              (skipped_with (reason_only "Local image - no registry available"))
              (o_write o AtLocal) >>
            return_
          else if truthy (rc_error registryCheck) then
            log ("Registry check error: " ++ show_undefined (rc_error registryCheck)) >>
            updateScheduleExecution
              (skipped_with (reason_only ("Registry check failed: "
                                          ++ show_undefined (rc_error registryCheck))))
              (o_write o AtRegistryError) >>
            return_
          else if negb (hasUpdate registryCheck) then
            log ("Already up-to-date: " ++ containerName
                 ++ " is running the latest version") >>
            updateScheduleExecution (skipped_with (reason_only "Already up-to-date"))
                                    (o_write o AtUpToDate) >>
            return_
          else
            log ("Update available! Registry digest: "
                 ++ or_default (String.substring 0 19 <$> registryDigest registryCheck)
                               "unknown") >>
            ret {| t_image := imageNameFromConfig;
                   t_currentImageId := currentImageId;
                   t_composeProject := composeProject;
                   t_composeService := composeService;
                   t_scanner := scannerSettings.1;
                   t_criteria := vulnerabilityCriteria;
                   t_newDigest := registryDigest registryCheck |}
  end.

(** Lines 225 to 467: bring the new image in, under the tag guard when a
    scanner is configured. The result is ([scanResults], [scanSummary]). *)
Definition fetch_image (t : Target)
    : M (option (list ScanResult) * option VulnerabilitySeverity) :=
  let shouldScan := negb (String.eqb (t_scanner t) "none") in
  if shouldScan then
    log ("Safe-pull enabled (scanner: " ++ t_scanner t ++ ", criteria: "
         ++ show_criteria (t_criteria t) ++ ")") >>
    if isDigestBasedImage h (t_image t) then
      log "Digest-based image detected - temp tag protection not available" >>
      ret (None, None)
    else
      let* r := safe_pull (t_criteria t) (t_image t) (t_currentImageId t) in
      ret (Some r.1, r.2)
  else
    simple_pull (t_image t) >> ret (None, None).

(** Lines 494 to 544: record the success, or throw. *)
Definition report (t : Target)
    (scans : option (list ScanResult) * option VulnerabilitySeverity)
    (success_ : bool) : M unit :=
  if success_ then
    call (CLastUpdated containerName) (o_lastUpdated o) no_effect >>
    log ("Successfully updated container: " ++ containerName) >>
    updateScheduleExecution
      (success_with (success_details (t_criteria t) (t_newDigest t)
                                     scans.1 scans.2))
      (o_write o AtSuccess) >>
    sendEventNotification "auto_update_success" (o_notifySuccess o)
  else throw "Failed to recreate container".

(** Lines 469 to 544: update the container and record the outcome. *)
Definition finish_update (t : Target)
    (scans : option (list ScanResult) * option VulnerabilitySeverity) : M unit :=
  let* success_ := update_container (t_composeProject t) (t_composeService t) in
  report t scans success_.

(** The body of the outer [try], lines 79 to 544. *)
Definition update_body : M unit :=
  let* t := prepare in
  let* scans := fetch_image t in
  finish_update t scans.

(** The outer [catch], lines 545 to 560. *)
Definition on_error (e : string) : M unit :=
  log ("Error: " ++ e) >>
  updateScheduleExecution (failed_with e) (o_write o AtFailed) >>
  sendEventNotification "auto_update_failed" (o_notifyFailed o).

(** [runContainerUpdate(settingId, containerName, environmentId, triggeredBy)]. *)
Definition runContainerUpdate : M unit :=
  createScheduleExecution (o_createExecution o) >>
  updateScheduleExecution started (o_write o AtStarted) >>
  try_catch update_body on_error.

End Run.

(** A run from a given engine state. *)
Definition run (h : Helpers) (o : Oracle) (containerName : string) (d : Docker)
    : Ctl unit * World :=
  runContainerUpdate h o containerName {| docker := d; trace := [] |}.

(** *** The helpers, as far as the specification describes them *)

Definition count_total (s : VulnerabilitySeverity) : Z :=
  critical s + high s + medium s + low s + negligible s + unknown s.

Definition count_at_least (t : SeverityTier) (s : VulnerabilitySeverity) : Z :=
  match t with
  | TierCritical => critical s
  | TierHigh => critical s + high s
  | TierMedium => critical s + high s + medium s
  | TierLow => critical s + high s + medium s + low s
  end.

Definition allowed : GateResult := {| blocked := false; reason := "" |}.

(** Modelled from the spec: [shouldBlockUpdate] of [update-utils.ts], which
    is not among the sources. Section 4.3: the gate takes the new image's
    summary, the criterion ([never], [anyKnown], [moreThanCurrent],
    severity-threshold variants) and, only for [moreThanCurrent], the running
    image's summary, and answers [allowed] or [blocked(reason)]. *)
Definition spec_shouldBlockUpdate (criteria : VulnerabilityCriteria)
    (newScan : VulnerabilitySeverity) (currentScan : option VulnerabilitySeverity)
    : GateResult :=
  match criteria with
  | never => allowed
  | any_known =>
      if (0 <? count_total newScan)%Z then
        {| blocked := true;
           reason := "Found " ++ pretty (count_total newScan) ++ " vulnerabilities" |}
      else allowed
  | threshold t =>
      if (0 <? count_at_least t newScan)%Z then
        {| blocked := true;
           reason := "Found " ++ pretty (count_at_least t newScan)
                     ++ " vulnerabilities of severity " ++ show_tier t ++ " or above" |}
      else allowed
  | more_than_current =>
      match currentScan with
      | Some cur =>
          if (count_total cur <? count_total newScan)%Z then
            {| blocked := true;
               reason := "New image has more vulnerabilities ("
                         ++ pretty (count_total newScan) ++ ") than the current one ("
                         ++ pretty (count_total cur) ++ ")" |}
          else allowed
      | None => allowed
      end
  end.

(** [s.includes(t)]. *)
Definition str_includes (t s : string) : bool :=
  match String.index 0 t s with Some _ => true | None => false end.

(** Modelled from the spec: [isDigestBasedImage] of [docker.ts], not among
    the sources. The glossary calls a reference digest-pinned when it is
    "identified by content hash" ([app@sha256:ccc]); the test is the one the
    self-update check makes on line 71 of its handler. *)
Definition spec_isDigestBasedImage (image : string) : bool :=
  str_includes "@sha256:" image.

(** The position of the last [c] in [s], counted from the end. *)
Fixpoint split_last (c : Ascii.ascii) (s : string) : option (string * string) :=
  match s with
  | EmptyString => None
  | String a s' =>
      match split_last c s' with
      | Some (l, r) => Some (String a l, r)
      | None => if Ascii.eqb a c then Some (EmptyString, s') else None
      end
  end.

(** Modelled from the spec: [parseImageNameAndTag] of [update-utils.ts], not
    among the sources. Section 2: the reference model "parses/normalizes
    [repo[:tag]]"; a colon that belongs to a registry port (a slash follows
    it) is not a tag separator, and the default tag is [latest]. *)
Definition spec_parseImageNameAndTag (image : string) : string * string :=
  match split_last ":"%char image with
  | Some (repo, tag) => if str_includes "/" tag then (image, "latest") else (repo, tag)
  | None => (image, "latest")
  end.

(** Modelled from the spec: [getTempImageTag] of [docker.ts], not among the
    sources. Section 3: "a deterministic, collision-resistant tag name
    derived from an ImageReference"; here a fixed suffix on the tag. *)
Definition spec_getTempImageTag (image : string) : string :=
  let rt := spec_parseImageNameAndTag image in
  rt.1 ++ ":" ++ rt.2 ++ "-dockhand-pending".

Definition max_severity (a b : VulnerabilitySeverity) : VulnerabilitySeverity :=
  {| critical := Z.max (critical a) (critical b);
     high := Z.max (high a) (high b);
     medium := Z.max (medium a) (medium b);
     low := Z.max (low a) (low b);
     negligible := Z.max (negligible a) (negligible b);
     unknown := Z.max (unknown a) (unknown b) |}.

Definition no_vulnerabilities : VulnerabilitySeverity :=
  {| critical := 0; high := 0; medium := 0; low := 0; negligible := 0; unknown := 0 |}.

(** The helpers used in the examples. The classifier of system containers
    and the combination of summaries are instances chosen for the examples:
    the task only passes them the image name and the scan results. *)
Definition example_helpers : Helpers :=
  {| isSystemContainer := fun image =>
       if str_includes "dockhand" image then Some "dockhand"
       else if str_includes "hawser" image then Some "hawser" else None;
     isDigestBasedImage := spec_isDigestBasedImage;
     getTempImageTag := spec_getTempImageTag;
     parseImageNameAndTag := spec_parseImageNameAndTag;
     shouldBlockUpdate := spec_shouldBlockUpdate;
     combineScanSummaries := fun rs => foldr max_severity no_vulnerabilities (map summary rs);
     extractContainerOptions := fun _ =>
       {| networkAliases := []; networkIpv4Address := None; macAddress := None;
          networkGwPriority := None; extraHosts := []; deviceRequests := [] |} |}.

(** *** What the statements observe in a trace *)

Definition is_registry_check (e : Event) : bool :=
  match e with ECall (CCheckImageUpdateAvailable _ _) true => true | _ => false end.

(** The calls that pull, move a tag, remove an image or touch a container. *)
Definition changes_engine (c : Call) : bool :=
  match c with
  | CPullImage _ | CTagImage _ _ _ | CRemoveTempImage _ | CStartStack _
  | CStopContainer _ | CRemoveContainer _ | CCreateContainer
  | CConnectNetwork _ _ _ | CStart _ => true
  | _ => false
  end.

(** The calls of the single-container Recreator. *)
Definition recreator_call (c : Call) : bool :=
  match c with
  | CStopContainer _ | CRemoveContainer _ | CCreateContainer
  | CConnectNetwork _ _ _ | CStart _ => true
  | _ => false
  end.

Definition completed {A} (r : Ctl A) : bool :=
  match r with Exc _ => false | _ => true end.

(** The [reason] given in the details of the last terminal write. *)
Definition skip_reason (t : list Event) : option string :=
  match last (terminal_writes t) with
  | Some u => match u_details u with Some dt => d_reason dt | None => None end
  | None => None
  end.

Definition pinned_reason : string := "Image pinned to specific digest".

(** The reason the guard on lines 113 to 126 gives for a system container. *)
Definition system_reason (systemContainerType : option string) : string :=
  if String.eqb (show_undefined systemContainerType) "dockhand"
  then "Cannot auto-update Dockhand itself"
  else "Cannot auto-update Hawser agent".

(** The ledger site of the skip for a digest-pinned image: the guard for
    system containers comes first. *)
Definition pinned_site (h : Helpers) (image : string) : WriteSite :=
  if truthy (isSystemContainer h image) then AtSystem else AtPinned.

(** The ledger site of the skip the registry check leads to. *)
Definition skip_site (rc : RegistryCheck) : WriteSite :=
  if isLocalImage rc then AtLocal
  else if truthy (rc_error rc) then AtRegistryError
  else AtUpToDate.

Definition is_gate (e : Event) : bool :=
  match e with EGate _ => true | _ => false end.

(** Log lines and calls that leave the engine as it is. *)
Definition quiet_event (e : Event) : bool :=
  match e with
  | ELog _ => true
  | ECall c _ => negb (changes_engine c)
  | _ => false
  end.

Definition not_gate (e : Event) : Prop := is_gate e = false.

(** Whether a line is in the log. *)
Definition logged (line : string) (t : list Event) : bool :=
  existsb (fun e => match e with ELog l => String.eqb l line | _ => false end) t.

(** The verdicts of the gate recorded in a trace. *)
Definition gate_verdicts (t : list Event) : list GateResult :=
  omap (fun e => match e with EGate g => Some g | _ => None end) t.

(** The details of the last terminal write. *)
Definition final_details (t : list Event) : option Details :=
  match last (terminal_writes t) with
  | Some u => u_details u
  | None => None
  end.

(** [m] only logs: it completes, leaves the engine alone and adds lines. *)
Definition logs_only (m : M unit) : Prop :=
  forall w, exists lines,
    m w = (Val tt, {| docker := docker w;
                      trace := (trace w ++ map ELog lines)%list |}).

(** [m] only adds events to the trace, and all of them satisfy [P]. *)
Definition emits {A} (P : Event -> Prop) (m : M A) : Prop :=
  forall w, exists evs, trace (m w).2 = (trace w ++ evs)%list /\ Forall P evs.

Definition is_connect (c : Call) : bool :=
  match c with CConnectNetwork _ _ _ => true | _ => false end.

Definition is_start (c : Call) : bool :=
  match c with CStart _ => true | _ => false end.

Definition is_stop (c : Call) : bool :=
  match c with CStopContainer _ => true | _ => false end.

Definition is_created (e : Event) : bool :=
  match e with ECall CCreateContainer true => true | _ => false end.

(** The networks [recreateContainer] tries to connect, in order. *)
Definition connect_attempts (t : list Event) : list Call :=
  List.filter is_connect (calls t).

(** [recreateContainer] on its own, from a given engine state. *)
Definition recreate (h : Helpers) (o : Oracle) (containerName : string)
    (d : Docker) : Ctl bool * World :=
  recreateContainer h o containerName {| docker := d; trace := [] |}.

(** *** Example runs *)

Definition web1 : ContainerSummary := {| id := "c0ffee000001"; name := "web-1" |}.

Definition labels_of (l : list (string * string)) : gmap string string :=
  list_to_map l.

Definition inspect_of (image : string) (image_id : ImageId)
    (labels : list (string * string)) (is_running : bool)
    (nets : list (string * NetConf)) : InspectData :=
  {| Config := Some {| Config_Image := Some image;
                       Config_Labels := Some (labels_of labels) |};
     Image := image_id;
     State_Running := is_running;
     HostConfig_NetworkMode := Some "bridge";
     Networks := nets |}.

Definition plain_net : NetConf :=
  {| Aliases := None; DNSNames := None; IPAM := None; GwPriority := None |}.

Definition update_found : RegistryCheck :=
  {| isLocalImage := false; rc_error := None; hasUpdate := true;
     registryDigest := Some "sha256:bbb" |}.

Definition one_critical : ScanResult :=
  {| imageName := "app:1.0-dockhand-pending"; scanner := "grype";
     scannedAt := "t1";
     summary := {| critical := 1; high := 0; medium := 0; low := 0;
                   negligible := 0; unknown := 0 |};
     scan_error := None |}.

Definition clean_scan : ScanResult :=
  {| imageName := "app:1.0-dockhand-pending"; scanner := "grype";
     scannedAt := "t1"; summary := no_vulnerabilities; scan_error := None |}.

(** The collaborators of the examples: everything answers, except for the
    answers given as arguments. *)
Definition example_oracle (inspect : InspectData) (scanner_ : string)
    (criteria : option VulnerabilityCriteria) (check : RegistryCheck)
    (restore : Outcome unit) (scan : Outcome (list ScanResult))
    (removeBlocked : Outcome unit) (stack : Outcome StackResult)
    (connect : string -> Outcome unit) (notifySuccess : Outcome unit) : Oracle :=
  {| o_createExecution := Returns tt;
     o_write := fun _ => Returns tt;
     o_lastChecked := Returns tt;
     o_listContainers := Returns [web1];
     o_inspect := Returns inspect;
     o_scannerSettings := Returns scanner_;
     o_updateSetting := Returns criteria;
     o_registryCheck := Returns check;
     o_pull := Returns "sha256:new";
     o_getImageId := Returns true;
     o_tagRestore := restore;
     o_tagTemp := Returns tt;
     o_scanProgress := [];
     o_scan := scan;
     o_save := fun _ => Returns tt;
     o_cachedScan := Returns None;
     o_scanCurrentProgress := [];
     o_scanCurrent := Returns [];
     o_saveCurrent := fun _ => Returns tt;
     o_removeBlocked := removeBlocked;
     o_notifyBlocked := Returns tt;
     o_removeAfterScanError := Returns tt;
     o_tagPromote := Returns tt;
     o_removeTempTag := Returns tt;
     o_composeFile := Returns {| cf_success := true; cf_content := Some "services: {}" |};
     o_startStack := stack;
     o_recreateList := Returns [web1];
     o_recreateInspect := Returns inspect;
     o_stop := Returns tt;
     o_removeContainer := Returns tt;
     o_create := Returns "c0ffee000002";
     o_connect := connect;
     o_start := Returns tt;
     o_lastUpdated := Returns tt;
     o_notifySuccess := notifySuccess;
     o_notifyFailed := Returns tt |}.

(** Dockhand's own container, pinned to a digest. *)
Definition pinned_dockhand : InspectData :=
  inspect_of "fnsys/dockhand@sha256:ccc" "sha256:ccc" [] true [].

(** An application container pinned to a digest. *)
Definition pinned_app : InspectData :=
  inspect_of "app@sha256:ccc" "sha256:ccc" [] true [].

(** The collaborators around a container whose inspection is [inspect],
    with a scanner when [scanner_] is not ["none"]. *)
Definition oracle_for (inspect : InspectData) (scanner_ : string) : Oracle :=
  example_oracle inspect scanner_ None update_found (Returns tt) (Returns [])
    (Returns tt) (Returns {| sr_success := true; sr_output := None; sr_error := None |})
    (fun _ => Returns tt) (Returns tt).

Definition up_to_date : RegistryCheck :=
  {| isLocalImage := false; rc_error := None; hasUpdate := false;
     registryDigest := Some "sha256:aaa" |}.

Definition app_1_0 : InspectData := inspect_of "app:1.0" "sha256:aaa" [] true [].

(** A container on the default bridge and on two further networks. *)
Definition two_nets : InspectData :=
  inspect_of "app:1.0" "sha256:aaa" [] true
    [("bridge", plain_net); ("backend", plain_net); ("metrics", plain_net)].

(** The network [backend] cannot be connected. *)
Definition backend_down (network : string) : Outcome unit :=
  if String.eqb network "backend" then Throws "network backend not found"
  else Returns tt.

Definition backend_down_oracle : Oracle :=
  example_oracle two_nets "none" None update_found (Returns tt) (Returns [])
    (Returns tt) (Returns {| sr_success := true; sr_output := None; sr_error := None |})
    backend_down (Returns tt).

(** A container that is not running. *)
Definition stopped_app : InspectData :=
  inspect_of "app:1.0" "sha256:aaa" [] false [].

(** The service [api] of the stack [shop], whose compose file is known. *)
Definition shop_api : InspectData :=
  inspect_of "app:1.0" "sha256:aaa"
    [("com.docker.compose.project", "shop"); ("com.docker.compose.service", "api")]
    true [].

(** [docker compose up] ends with an error. *)
Definition compose_failed : Outcome StackResult :=
  Returns {| sr_success := false; sr_output := None;
             sr_error := Some "exit status 1" |}.

Definition compose_failed_oracle : Oracle :=
  example_oracle shop_api "none" None update_found (Returns tt) (Returns [])
    (Returns tt) compose_failed (fun _ => Returns tt) (Returns tt).

(** The update succeeds, then the success notification cannot be sent. *)
Definition notify_fails_oracle : Oracle :=
  example_oracle app_1_0 "none" None update_found (Returns tt) (Returns [])
    (Returns tt) (Returns {| sr_success := true; sr_output := None; sr_error := None |})
    (fun _ => Returns tt) (Throws "notification channel unreachable").

(** A scanner is configured, the criterion blocks on any vulnerability, the
    scan finds a critical one; [restore] and [remove] are the answers to the
    restore of the production tag and to the removal of the blocked image. *)
Definition blocking_oracle (restore remove : Outcome unit) : Oracle :=
  example_oracle app_1_0 "grype" (Some any_known) update_found restore
    (Returns [one_critical]) remove
    (Returns {| sr_success := true; sr_output := None; sr_error := None |})
    (fun _ => Returns tt) (Returns tt).

Definition found_one : GateResult :=
  {| blocked := true; reason := "Found 1 vulnerabilities" |}.

Definition fallback_line (stack : string) : string :=
  "Fallback: Recreating container directly (stack " ++ dquote ++ stack
  ++ dquote ++ " not managed by Dockhand)".

Definition stack_ok : Outcome StackResult :=
  Returns {| sr_success := true; sr_output := None; sr_error := None |}.

(** The engine before a run: [app:1.0] resolves to the image [old_tag],
    the container [web-1] is up. *)
Definition engine (old_tag : ImageId) : Docker :=
  {| tags := {[ ("app", "1.0") := old_tag ]};
     images := {[ "sha256:aaa"; old_tag ]};
     containers := {[ "c0ffee000001" := Up ]} |}.

(** The engine refuses every removal of an image. *)
Definition removal_refused (o : Oracle) : Oracle :=
  {| o_createExecution := o_createExecution o;
     o_write := o_write o;
     o_lastChecked := o_lastChecked o;
     o_listContainers := o_listContainers o;
     o_inspect := o_inspect o;
     o_scannerSettings := o_scannerSettings o;
     o_updateSetting := o_updateSetting o;
     o_registryCheck := o_registryCheck o;
     o_pull := o_pull o;
     o_getImageId := o_getImageId o;
     o_tagRestore := o_tagRestore o;
     o_tagTemp := o_tagTemp o;
     o_scanProgress := o_scanProgress o;
     o_scan := o_scan o;
     o_save := o_save o;
     o_cachedScan := o_cachedScan o;
     o_scanCurrentProgress := o_scanCurrentProgress o;
     o_scanCurrent := o_scanCurrent o;
     o_saveCurrent := o_saveCurrent o;
     o_removeBlocked := Throws "image is in use";
     o_notifyBlocked := o_notifyBlocked o;
     o_removeAfterScanError := Throws "image is in use";
     o_tagPromote := o_tagPromote o;
     o_removeTempTag := o_removeTempTag o;
     o_composeFile := o_composeFile o;
     o_startStack := o_startStack o;
     o_recreateList := o_recreateList o;
     o_recreateInspect := o_recreateInspect o;
     o_stop := o_stop o;
     o_removeContainer := o_removeContainer o;
     o_create := o_create o;
     o_connect := o_connect o;
     o_start := o_start o;
     o_lastUpdated := o_lastUpdated o;
     o_notifySuccess := o_notifySuccess o;
     o_notifyFailed := o_notifyFailed o |}.

Definition removal_refused_oracle : Oracle :=
  removal_refused (blocking_oracle (Returns tt) (Returns tt)).

(** [o], except that the engine cannot create a container and the failure
    notification cannot be sent. *)
Definition create_refused (o : Oracle) : Oracle :=
  {| o_createExecution := o_createExecution o;
     o_write := o_write o;
     o_lastChecked := o_lastChecked o;
     o_listContainers := o_listContainers o;
     o_inspect := o_inspect o;
     o_scannerSettings := o_scannerSettings o;
     o_updateSetting := o_updateSetting o;
     o_registryCheck := o_registryCheck o;
     o_pull := o_pull o;
     o_getImageId := o_getImageId o;
     o_tagRestore := o_tagRestore o;
     o_tagTemp := o_tagTemp o;
     o_scanProgress := o_scanProgress o;
     o_scan := o_scan o;
     o_save := o_save o;
     o_cachedScan := o_cachedScan o;
     o_scanCurrentProgress := o_scanCurrentProgress o;
     o_scanCurrent := o_scanCurrent o;
     o_saveCurrent := o_saveCurrent o;
     o_removeBlocked := o_removeBlocked o;
     o_notifyBlocked := o_notifyBlocked o;
     o_removeAfterScanError := o_removeAfterScanError o;
     o_tagPromote := o_tagPromote o;
     o_removeTempTag := o_removeTempTag o;
     o_composeFile := o_composeFile o;
     o_startStack := o_startStack o;
     o_recreateList := o_recreateList o;
     o_recreateInspect := o_recreateInspect o;
     o_stop := o_stop o;
     o_removeContainer := o_removeContainer o;
     o_create := Throws "no space left on device";
     o_connect := o_connect o;
     o_start := o_start o;
     o_lastUpdated := o_lastUpdated o;
     o_notifySuccess := o_notifySuccess o;
     o_notifyFailed := Throws "notification channel unreachable" |}.

Definition create_refused_oracle : Oracle :=
  create_refused (oracle_for app_1_0 "none").

(** [updateStackContainer] on its own, from a given engine state. *)
Definition stack_update (o : Oracle) (stackName serviceName : string)
    (d : Docker) : Ctl bool * World :=
  updateStackContainer o stackName serviceName {| docker := d; trace := [] |}.

Definition is_stack_start (c : Call) : bool :=
  match c with CStartStack _ => true | _ => false end.

(** [o] with other answers of the execution ledger. *)
Definition with_write (write : WriteSite -> Outcome unit) (o : Oracle) : Oracle :=
  {| o_createExecution := o_createExecution o;
     o_write := write;
     o_lastChecked := o_lastChecked o;
     o_listContainers := o_listContainers o;
     o_inspect := o_inspect o;
     o_scannerSettings := o_scannerSettings o;
     o_updateSetting := o_updateSetting o;
     o_registryCheck := o_registryCheck o;
     o_pull := o_pull o;
     o_getImageId := o_getImageId o;
     o_tagRestore := o_tagRestore o;
     o_tagTemp := o_tagTemp o;
     o_scanProgress := o_scanProgress o;
     o_scan := o_scan o;
     o_save := o_save o;
     o_cachedScan := o_cachedScan o;
     o_scanCurrentProgress := o_scanCurrentProgress o;
     o_scanCurrent := o_scanCurrent o;
     o_saveCurrent := o_saveCurrent o;
     o_removeBlocked := o_removeBlocked o;
     o_notifyBlocked := o_notifyBlocked o;
     o_removeAfterScanError := o_removeAfterScanError o;
     o_tagPromote := o_tagPromote o;
     o_removeTempTag := o_removeTempTag o;
     o_composeFile := o_composeFile o;
     o_startStack := o_startStack o;
     o_recreateList := o_recreateList o;
     o_recreateInspect := o_recreateInspect o;
     o_stop := o_stop o;
     o_removeContainer := o_removeContainer o;
     o_create := o_create o;
     o_connect := o_connect o;
     o_start := o_start o;
     o_lastUpdated := o_lastUpdated o;
     o_notifySuccess := o_notifySuccess o;
     o_notifyFailed := o_notifyFailed o |}.

(** [o] with another answer to the lookup that follows the pull. *)
Definition with_lookup (lookup : Outcome bool) (o : Oracle) : Oracle :=
  {| o_createExecution := o_createExecution o;
     o_write := o_write o;
     o_lastChecked := o_lastChecked o;
     o_listContainers := o_listContainers o;
     o_inspect := o_inspect o;
     o_scannerSettings := o_scannerSettings o;
     o_updateSetting := o_updateSetting o;
     o_registryCheck := o_registryCheck o;
     o_pull := o_pull o;
     o_getImageId := lookup;
     o_tagRestore := o_tagRestore o;
     o_tagTemp := o_tagTemp o;
     o_scanProgress := o_scanProgress o;
     o_scan := o_scan o;
     o_save := o_save o;
     o_cachedScan := o_cachedScan o;
     o_scanCurrentProgress := o_scanCurrentProgress o;
     o_scanCurrent := o_scanCurrent o;
     o_saveCurrent := o_saveCurrent o;
     o_removeBlocked := o_removeBlocked o;
     o_notifyBlocked := o_notifyBlocked o;
     o_removeAfterScanError := o_removeAfterScanError o;
     o_tagPromote := o_tagPromote o;
     o_removeTempTag := o_removeTempTag o;
     o_composeFile := o_composeFile o;
     o_startStack := o_startStack o;
     o_recreateList := o_recreateList o;
     o_recreateInspect := o_recreateInspect o;
     o_stop := o_stop o;
     o_removeContainer := o_removeContainer o;
     o_create := o_create o;
     o_connect := o_connect o;
     o_start := o_start o;
     o_lastUpdated := o_lastUpdated o;
     o_notifySuccess := o_notifySuccess o;
     o_notifyFailed := o_notifyFailed o |}.

(** The ledger rejects the write that records an up-to-date image. *)
Definition up_to_date_unrecorded : Oracle :=
  with_write (fun site => match site with
                          | AtUpToDate => Throws "database is locked"
                          | _ => Returns tt
                          end)
    (example_oracle app_1_0 "grype" None up_to_date (Returns tt) (Returns [])
       (Returns tt) stack_ok (fun _ => Returns tt) (Returns tt)).

(** The ledger rejects the write that records a digest-pinned image. *)
Definition pinned_unrecorded : Oracle :=
  with_write (fun site => match site with
                          | AtPinned => Throws "database is locked"
                          | _ => Returns tt
                          end)
    (oracle_for pinned_app "none").

(** After the pull the lookup of the production tag answers [null]. *)
Definition lookup_null_oracle : Oracle :=
  with_lookup (Returns false) (blocking_oracle (Returns tt) (Returns tt)).

End Update.

(** ** The self-update check ([self-update/check/+server.ts]) *)

Module SelfCheck.

Import Update.
Local Open Scope string_scope.

Record Auth := { authEnabled : bool; isAdmin : bool }.

Record InspectJson := {
  ij_Image : option string;                 (* Config?.Image *)
  ij_Labels : option (gmap string string);  (* Config?.Labels *)
  ij_ImageId : option string;               (* Image *)
  ij_Name : option string
}.

(** The JSON body of the answer; absent fields are [None]. *)
Record Response := {
  http_status : Z;
  updateAvailable : option bool;
  error : option string;
  currentImage : option string;
  currentDigest : option string;
  newDigest : option string;
  containerName : option string;
  isComposeManaged : option bool;
  isLocalImage : option bool
}.

Inductive Request :=
| ReqInspectContainer (c : string)
| ReqInspectImage (image : string)
| ReqRegistryManifestDigest (image : string).

(** The answers of the local socket and of the registry. For the two
    socket requests [Returns None] is a response that is not [ok]. *)
Record Oracle := {
  ownContainerId : option string;
  inspectResponse : Outcome (option InspectJson);
  imageResponse : Outcome (option (option (list string)));   (* RepoDigests *)
  registryManifestDigest : Outcome (option string)
}.

Definition empty_response : Response :=
  {| http_status := 200; updateAvailable := None; error := None;
     currentImage := None; currentDigest := None; newDigest := None;
     containerName := None; isComposeManaged := None; isLocalImage := None |}.

Definition not_available (err : option string) : Response :=
  {| http_status := 200; updateAvailable := Some false; error := err;
     currentImage := None; currentDigest := None; newDigest := None;
     containerName := None; isComposeManaged := None; isLocalImage := None |}.

(** [String(err)] for a rejection with an [Error]: its name and message. *)
Definition error_to_string (message : string) : string :=
  "Error: " ++ message.

(** [s.replace(/^\//, '')]. *)
Definition strip_slash (s : string) : string :=
  match s with
  | String c s' => if Ascii.eqb c "/"%char then s' else s
  | EmptyString => s
  end.

(** [s.split(c)] for a one-character separator. *)
Fixpoint split_on (c : ascii) (s : string) : list string :=
  match s with
  | EmptyString => [EmptyString]
  | String a s' =>
      if Ascii.eqb a c then EmptyString :: split_on c s'
      else match split_on c s' with
           | [] => [String a EmptyString]
           | l :: ls => String a l :: ls
           end
  end.

(** [rd.substring(rd.lastIndexOf('@') + 1)], or [null] without an [@]. *)
Definition digest_of (rd : string) : option string :=
  snd <$> split_last "@"%char rd.

(** [.map(...).filter(Boolean)]: [null] and the empty string are dropped. *)
Definition local_digests (repoDigests : list string) : list string :=
  omap (fun rd => or_undefined (digest_of rd)) repoDigests.

(** The handler from line 32 on, after the admin check, with the requests
    it sends. *)
Definition check (o : Oracle) : Response * list Request :=
  match ownContainerId o with
  | None => (not_available (Some "Not running in Docker"), [])
  | Some cid =>
      if String.eqb cid "" then (not_available (Some "Not running in Docker"), [])
      else
      let failed_ e reqs :=
        (not_available (Some ("Check failed: " ++ error_to_string e)), reqs) in
      match inspectResponse o with
      | Throws e => failed_ e [ReqInspectContainer cid]
      | Returns None =>
          (not_available (Some "Failed to inspect own container"),
           [ReqInspectContainer cid])
      | Returns (Some inspectData) =>
          let currentImage_ := or_default (ij_Image inspectData) "" in
          let currentImageId := or_default (ij_ImageId inspectData) "" in
          let containerName_ :=
            or_default (strip_slash <$> ij_Name inspectData) "" in
          if String.eqb currentImage_ "" then
            (not_available (Some "Could not determine current image"),
             [ReqInspectContainer cid])
          else
            let isComposeManaged_ :=
              truthy (match ij_Labels inspectData with
                      | Some l => l !! "com.docker.compose.project"
                      | None => None
                      end) in
            let base :=
              {| http_status := 200; updateAvailable := Some false; error := None;
                 currentImage := Some currentImage_; currentDigest := None;
                 newDigest := None; containerName := Some containerName_;
                 isComposeManaged := Some isComposeManaged_;
                 isLocalImage := None |} in
            if str_includes "@sha256:" currentImage_ then
              ({| http_status := 200; updateAvailable := Some false; error := None;
                  currentImage := Some currentImage_;
                  currentDigest := split_on "@"%char currentImage_ !! 1%nat;
                  newDigest := None; containerName := Some containerName_;
                  isComposeManaged := Some isComposeManaged_;
                  isLocalImage := None |},
               [ReqInspectContainer cid])
            else
              let reqs2 := [ReqInspectContainer cid; ReqInspectImage currentImageId] in
              match imageResponse o with
              | Throws e => failed_ e reqs2
              | Returns None =>
                  ({| http_status := 200; updateAvailable := Some false;
                      error := Some "Could not inspect current image";
                      currentImage := Some currentImage_; currentDigest := None;
                      newDigest := None; containerName := Some containerName_;
                      isComposeManaged := Some isComposeManaged_;
                      isLocalImage := None |}, reqs2)
              | Returns (Some repoDigests_) =>
                  let repoDigests := default [] repoDigests_ in
                  let localDigests := local_digests repoDigests in
                  if negb (nonempty localDigests) then
                    ({| http_status := 200; updateAvailable := Some false;
                        error := None;
                        currentImage := Some currentImage_; currentDigest := None;
                        newDigest := None; containerName := Some containerName_;
                        isComposeManaged := Some isComposeManaged_;
                        isLocalImage := Some true |}, reqs2)
                  else
                    let reqs3 :=
                      (reqs2 ++ [ReqRegistryManifestDigest currentImage_])%list in
                    match registryManifestDigest o with
                    | Throws e => failed_ e reqs3
                    | Returns registryDigest_ =>
                        if negb (truthy registryDigest_) then
                          ({| http_status := 200; updateAvailable := Some false;
                              error := Some "Could not query registry";
                              currentImage := Some currentImage_;
                              currentDigest := None; newDigest := None;
                              containerName := Some containerName_;
                              isComposeManaged := Some isComposeManaged_;
                              isLocalImage := None |}, reqs3)
                        else
                          let hasUpdate_ :=
                            negb (includes localDigests
                                           (show_undefined registryDigest_)) in
                          ({| http_status := 200; updateAvailable := Some hasUpdate_;
                              error := None;
                              currentImage := Some currentImage_;
                              currentDigest := head localDigests;
                              newDigest := registryDigest_;
                              containerName := Some containerName_;
                              isComposeManaged := Some isComposeManaged_;
                              isLocalImage := None |}, reqs3)
                    end
              end
      end
  end.

(** [GET]: the admin check, then the handler. *)
Definition GET (auth : Auth) (o : Oracle) : Response * list Request :=
  if authEnabled auth && negb (isAdmin auth) then
    ({| http_status := 403; updateAvailable := None;
        error := Some "Admin access required";
        currentImage := None; currentDigest := None; newDigest := None;
        containerName := None; isComposeManaged := None; isLocalImage := None |},
     [])
  else check o.

Definition is_registry_request (r : Request) : bool :=
  match r with ReqRegistryManifestDigest _ => true | _ => false end.

(** Examples: an administrator; Dockhand's own container on an image the
    registry has since replaced. *)
Definition admin : Auth := {| authEnabled := true; isAdmin := true |}.

Definition outdated_oracle : Oracle :=
  {| ownContainerId := Some "c0ffee000001";
     inspectResponse :=
       Returns (Some {| ij_Image := Some "fnsys/dockhand:latest";
                        ij_Labels := None;
                        ij_ImageId := Some "sha256:aaa";
                        ij_Name := Some "/dockhand" |});
     imageResponse := Returns (Some (Some ["fnsys/dockhand@sha256:aaa"]));
     registryManifestDigest := Returns (Some "sha256:bbb") |}.

End SelfCheck.

(** * Properties *)

(** ** [stripDockerLogHeaders] *)

Module ProgressFacts.

Import Progress.

Lemma len_nonneg raw : 0 <= len raw.
Proof. unfold len. lia. Qed.

(** What a pass of the loop body yields, whatever the bytes are. *)
Lemma step_shape raw offset :
  0 <= offset < len raw ->
  match step raw offset with
  | (Frame size payload, a) =>
      0 < size /\ offset + 8 + size <= len raw
      /\ payload = slice raw (offset + 8) (offset + 8 + size)
      /\ Forall (in_bounds raw) a
  | (Rest payload, a) =>
      payload = slice_from raw offset /\ Forall (in_bounds raw) a
  end.
Proof.
  intros Hoff. unfold step.
  assert (Hrest : forall acc, Forall (in_bounds raw) acc ->
            Forall (in_bounds raw) (acc ++ [Range offset (len raw)])).
  { intros acc Hacc. apply Forall_app. split; [exact Hacc|].
    repeat constructor; simpl; lia. }
  destruct (offset + 8 <=? len raw) eqn:H8.
  - apply Z.leb_le in H8.
    destruct (le2 (read raw offset)).
    + match goal with
      | |- context [if (0 <? ?s) && _ then _ else _] => set (size := s)
      end.
      destruct ((0 <? size) && (offset + 8 + size <=? len raw)) eqn:Hs.
      * apply andb_true_iff in Hs as [Hpos Hfit].
        apply Z.ltb_lt in Hpos. apply Z.leb_le in Hfit.
        repeat split; try lia.
        apply Forall_app. split; repeat constructor; simpl; lia.
      * split; [reflexivity|]. apply Hrest. repeat constructor; simpl; lia.
    + split; [reflexivity|]. apply Hrest. repeat constructor; simpl; lia.
  - split; [reflexivity|]. apply Hrest. constructor.
Qed.

Lemma kept_lines_cons decode p ps :
  kept_lines decode (p :: ps)
  = filter (fun l => trim_truthy l = true) (split_nl (decode p))
    ++ kept_lines decode ps.
Proof. unfold kept_lines. simpl. apply filter_app. Qed.

(** The loop with enough fuel: it ends, stays inside [raw], and what it
    collects are the kept lines of the pieces from [offset] on. *)
Lemma strip_loop_spec decode raw :
  forall fuel offset lines acc,
    0 <= offset ->
    (Z.to_nat (len raw - offset) < fuel)%nat ->
    Forall (in_bounds raw) acc ->
    exists acc',
      strip_loop decode fuel raw offset lines acc
      = Some (lines ++ kept_lines decode (chunks fuel raw offset), acc')
      /\ Forall (in_bounds raw) acc'.
Proof.
  induction fuel as [|fuel IH]; intros offset lines acc Hoff Hfuel Hacc; [lia|].
  simpl. destruct (offset <? len raw) eqn:Hlt.
  - apply Z.ltb_lt in Hlt.
    pose proof (step_shape raw offset (conj Hoff Hlt)) as Hstep.
    destruct (step raw offset) as [[size payload|payload] a]; simpl.
    + destruct Hstep as (Hpos & Hfit & _ & Ha).
      destruct (IH (offset + 8 + size)
                   (push_lines lines (decode payload)) (acc ++ a))
        as (acc' & Heq & Hb); [lia|lia|by apply Forall_app|].
      exists acc'. split; [|exact Hb].
      rewrite Heq, kept_lines_cons. unfold push_lines.
      by rewrite <- app_assoc.
    + destruct Hstep as (_ & Ha). eexists. split.
      * unfold push_lines, kept_lines. simpl. by rewrite app_nil_r.
      * by apply Forall_app.
  - exists acc. split; [|exact Hacc].
    unfold kept_lines. simpl. by rewrite app_nil_r.
Qed.

(** More fuel never changes a result. *)
Lemma strip_loop_more_fuel decode raw :
  forall fuel fuel' offset lines acc r,
    strip_loop decode fuel raw offset lines acc = Some r ->
    (fuel <= fuel')%nat ->
    strip_loop decode fuel' raw offset lines acc = Some r.
Proof.
  induction fuel as [|fuel IH]; intros fuel' offset lines acc r H Hle; [discriminate|].
  destruct fuel' as [|fuel']; [lia|].
  simpl in *. destruct (offset <? len raw); [|exact H].
  destruct (step raw offset) as [[size payload|payload] a]; [|exact H].
  eapply IH; [exact H|lia].
Qed.

Lemma kept_lines_nonblank decode ps :
  Forall (fun l => trim_truthy l = true) (kept_lines decode ps).
Proof.
  unfold kept_lines. apply Forall_forall. intros l Hl.
  by apply list_elem_of_filter in Hl as [Hl _].
Qed.


(** *** Frames and plain text *)

Lemma byte_val_range b : 0 <= byte_val b < 256.
Proof.
  unfold byte_val. pose proof (Byte.to_N_bounded b). lia.
Qed.

Lemma read_range raw i v : read raw i = Some v -> 0 <= v < 256.
Proof.
  unfold read. destruct (i <? 0); [done|].
  destruct (raw !! Z.to_nat i) as [b|]; [|done].
  intros [= <-]. apply byte_val_range.
Qed.

Lemma wrap32_small z : -2147483648 <= z < 2147483648 -> wrap32 z = z.
Proof. intros H. unfold wrap32. rewrite Z.mod_small; lia. Qed.

(** Bits that do not overlap add up. *)
Lemma land_shifted hi lo k :
  0 <= lo < 2 ^ k -> Z.land (hi * 2 ^ k) lo = 0.
Proof.
  intros Hlo. apply Z.bits_inj'. intros n Hn.
  rewrite Z.land_spec, Z.bits_0.
  destruct (Z.lt_ge_cases n k) as [Hlt|Hge].
  - by rewrite Z.mul_pow2_bits_low by lia.
  - destruct (Z.eq_dec lo 0) as [->|Hne].
    + by rewrite Z.bits_0, andb_false_r.
    + rewrite (Z.bits_above_log2 lo n), andb_false_r; [done|lia|].
      assert (Z.log2 lo < k); [|lia].
      apply Z.log2_lt_pow2; lia.
Qed.

Lemma lor_shifted hi lo k :
  0 <= lo < 2 ^ k -> Z.lor (hi * 2 ^ k) lo = hi * 2 ^ k + lo.
Proof.
  intros Hlo. pose proof (land_shifted hi lo k Hlo) as Hland.
  by rewrite <- (Z.lxor_lor _ _ Hland), <- (Z.add_nocarry_lxor _ _ Hland).
Qed.

(** The four size bytes as the signed 32-bit number the code computes. *)
Lemma size_of_header b4 b5 b6 b7 :
  0 <= b4 < 256 -> 0 <= b5 < 256 -> 0 <= b6 < 256 -> 0 <= b7 < 256 ->
  or32 (or32 (or32 (shl32 (Some b4) 24) (shl32 (Some b5) 16))
             (shl32 (Some b6) 8))
       (toInt32 (Some b7))
  = wrap32 (b4 * 16777216 + b5 * 65536 + b6 * 256 + b7).
Proof.
  intros H4 H5 H6 H7. unfold or32, shl32, toInt32.
  rewrite !(wrap32_small b4), !(wrap32_small b5), !(wrap32_small b6),
    !(wrap32_small b7) by lia.
  rewrite !Z.shiftl_mul_pow2 by lia.
  change (2 ^ 24) with 16777216. change (2 ^ 16) with 65536.
  change (2 ^ 8) with 256.
  rewrite (wrap32_small (b5 * 65536)), (wrap32_small (b6 * 256)) by lia.
  assert (Hhi : exists m, wrap32 (b4 * 16777216) = m * 16777216
                          /\ -128 <= m < 128
                          /\ wrap32 (b4 * 16777216 + b5 * 65536 + b6 * 256 + b7)
                             = m * 16777216 + b5 * 65536 + b6 * 256 + b7).
  { destruct (Z.lt_ge_cases b4 128).
    - exists b4. rewrite !wrap32_small by lia. lia.
    - exists (b4 - 256). unfold wrap32.
      replace (b4 * 16777216 + 2147483648)
        with ((b4 - 128) * 16777216 + 1 * 4294967296) by lia.
      replace (b4 * 16777216 + b5 * 65536 + b6 * 256 + b7 + 2147483648)
        with ((b4 - 128) * 16777216 + b5 * 65536 + b6 * 256 + b7
              + 1 * 4294967296) by lia.
      rewrite !Z.mod_add by lia. rewrite !Z.mod_small by lia. lia. }
  destruct Hhi as (m & -> & Hm & ->).
  pose proof (lor_shifted m (b5 * 65536) 24) as E1.
  change (2 ^ 24) with 16777216 in E1. rewrite E1 by lia. clear E1.
  rewrite (wrap32_small (m * 16777216 + b5 * 65536)) by lia.
  pose proof (lor_shifted (m * 256 + b5) (b6 * 256) 16) as E2.
  change (2 ^ 16) with 65536 in E2.
  replace ((m * 256 + b5) * 65536) with (m * 16777216 + b5 * 65536) in E2 by lia.
  rewrite E2 by lia. clear E2.
  rewrite (wrap32_small (m * 16777216 + b5 * 65536 + b6 * 256)) by lia.
  pose proof (lor_shifted (m * 65536 + b5 * 256 + b6) b7 8) as E3.
  change (2 ^ 8) with 256 in E3.
  replace ((m * 65536 + b5 * 256 + b6) * 256)
    with (m * 16777216 + b5 * 65536 + b6 * 256) in E3 by lia.
  rewrite E3 by lia.
  apply wrap32_small. lia.
Qed.
(** When a pass of the loop takes a frame. With a stream type of at most 2
    in the first byte of a complete header, the four size bytes are read as
    a big-endian number: the pass consumes a frame of that size when the
    size is positive, below 2^31 and the payload lies inside the array; a
    size of 2^31 or more is negative as a 32-bit integer, so it is never a
    frame: like a zero size or a payload that is cut short, it makes the
    pass decode the rest as text. *)
Theorem frame_is_recognised raw offset st b4 b5 b6 b7 :
  0 <= offset -> offset + 8 <= len raw ->
  read raw offset = Some st -> st <= 2 ->
  read raw (offset + 4) = Some b4 -> read raw (offset + 5) = Some b5 ->
  read raw (offset + 6) = Some b6 -> read raw (offset + 7) = Some b7 ->
  (b4 < 128 ->
   0 < b4 * 16777216 + b5 * 65536 + b6 * 256 + b7 ->
   offset + 8 + (b4 * 16777216 + b5 * 65536 + b6 * 256 + b7) <= len raw ->
   fst (step raw offset)
   = Frame (b4 * 16777216 + b5 * 65536 + b6 * 256 + b7)
           (slice raw (offset + 8)
                  (offset + 8 + (b4 * 16777216 + b5 * 65536 + b6 * 256 + b7))))
  /\ (128 <= b4
      \/ b4 * 16777216 + b5 * 65536 + b6 * 256 + b7 = 0
      \/ len raw < offset + 8 + (b4 * 16777216 + b5 * 65536 + b6 * 256 + b7) ->
      fst (step raw offset) = Rest (slice_from raw offset)).
Proof.
  intros Hoff H8 Hst Hle Hb4 Hb5 Hb6 Hb7.
  pose proof (read_range _ _ _ Hb4). pose proof (read_range _ _ _ Hb5).
  pose proof (read_range _ _ _ Hb6). pose proof (read_range _ _ _ Hb7).
  unfold step. apply Z.leb_le in H8 as H8'. rewrite H8'.
  rewrite Hst. simpl le2. apply Z.leb_le in Hle as Hle'. rewrite Hle'.
  rewrite Hb4, Hb5, Hb6, Hb7, size_of_header by done.
  set (n := b4 * 16777216 + b5 * 65536 + b6 * 256 + b7).
  split.
  - intros Hsmall Hpos Hfit. rewrite wrap32_small by (unfold n; lia).
    apply Z.ltb_lt in Hpos as ->. apply Z.leb_le in Hfit as ->. done.
  - intros Hcase.
    destruct (Z.lt_ge_cases b4 128) as [Hsmall|Hbig].
    + rewrite wrap32_small by (unfold n; lia).
      destruct Hcase as [?|[Hz|Hcut]]; [lia| |].
      * rewrite Hz. done.
      * apply Z.leb_gt in Hcut as ->. by rewrite andb_false_r.
    + assert (wrap32 n < 0) as Hneg.
      { unfold wrap32.
        replace (n + 2147483648)
          with ((b4 - 128) * 16777216 + b5 * 65536 + b6 * 256 + b7
                + 1 * 4294967296) by (unfold n; lia).
        rewrite Z.mod_add by lia. rewrite Z.mod_small by lia. unfold n. lia. }
      assert ((0 <? wrap32 n) = false) as -> by (apply Z.ltb_ge; lia). done.
Qed.

Lemma frame_is_recognised_witness :
  fst (step ["001"; "000"; "000"; "000"; "000"; "000"; "000"; "002";
             "104"; "105"]%byte 0)
  = Frame 2 ["104"; "105"]%byte.
Proof.
  refine (proj1 (frame_is_recognised _ 0 1 0 0 0 2 _ _ _ _ _ _ _ _) _ _ _);
    (reflexivity || (vm_compute; congruence) || lia).
Defined.

(** Input that starts with no frame header is passed through as text: when
    fewer than eight bytes are left, or the first byte is not a stream
    type, the whole rest is decoded and split into its non-blank lines. *)
Theorem plain_text_passes_through decode raw :
  0 < len raw ->
  len raw < 8 \/ le2 (read raw 0) = false ->
  stripDockerLogHeaders decode raw
  = Some (join_nl (filter (fun l => trim_truthy l = true)
                          (split_nl (decode raw)))).
Proof.
  intros Hlen Hcase.
  unfold stripDockerLogHeaders, stripDockerLogHeaders_run. cbn [strip_loop].
  apply Z.ltb_lt in Hlen as ->.
  assert (exists acc, step raw 0 = (Rest raw, acc)) as [acc ->].
  { unfold step, slice_from. change (0 + 8) with 8.
    change (Z.to_nat 0) with 0%nat. rewrite drop_0.
    destruct Hcase as [Hshort|Hle].
    - apply Z.leb_gt in Hshort as ->. by eexists.
    - rewrite Hle. destruct (8 <=? len raw); by eexists. }
  unfold push_lines. cbn [fmap option_fmap option_map fst app]. reflexivity.
Qed.

Lemma plain_text_passes_through_witness :
  stripDockerLogHeaders latin1 ["104"; "105"; "010"; "010"; "033"]%byte
  = Some [104; 105; 10; 33].
Proof.
  rewrite (plain_text_passes_through latin1); [reflexivity|reflexivity|].
  left. reflexivity.
Defined.

End ProgressFacts.

(** ** The update task *)

Module UpdateFacts.

Import Update.
Local Open Scope string_scope.

#[local] Arguments String.append : simpl never.
#[local] Arguments pretty : simpl never.
#[local] Arguments String.substring : simpl never.
#[local] Arguments String.concat : simpl never.
#[local] Arguments pull_effect : simpl never.
#[local] Arguments tag_effect : simpl never.
#[local] Arguments remove_image_effect : simpl never.
#[local] Arguments untag_effect : simpl never.
#[local] Arguments stop_effect : simpl never.
#[local] Arguments remove_container_effect : simpl never.
#[local] Arguments create_effect : simpl never.
#[local] Arguments start_effect : simpl never.
#[local] Arguments truthy : simpl never.
#[local] Arguments show_undefined : simpl never.
#[local] Arguments or_default : simpl never.
#[local] Arguments find_container : simpl never.
#[local] Arguments label : simpl never.
#[local] Arguments String.eqb : simpl never.

(** Symbolic execution: unfold the control operators, then compute. *)
Ltac exec :=
  unfold try_catch, bind, ret, return_, throw, log, updateScheduleExecution,
    createScheduleExecution, emit, call, when, sendEventNotification, removeTempImage, removeTempTag,
    tagImage,
    pullImage, getImageIdByTag, read_settings, no_effect;
  cbn -[String.eqb].

(** Split on the answer the run waits for next. *)
Ltac split_next :=
  match goal with
  | |- context [match ?x with _ => _ end] =>
      lazymatch x with
      | context [match _ with _ => _ end] => fail
      | _ => destruct x eqn:?
      end
  end.

(** *** Events of composed computations *)

Section Emits.

Context {P : Event -> Prop}.

Lemma emits_ret {A} (a : A) : emits P (ret a).
Proof. intros w. exists []. by rewrite app_nil_r. Qed.

Lemma emits_return {A} : emits P (@return_ A).
Proof. intros w. exists []. by rewrite app_nil_r. Qed.

Lemma emits_throw {A} e : emits P (@throw A e).
Proof. intros w. exists []. by rewrite app_nil_r. Qed.

Lemma emits_emit e : P e -> emits P (emit e).
Proof. intros He w. exists [e]. split; [done|]. by constructor. Qed.

Lemma emits_log line : P (ELog line) -> emits P (log line).
Proof. apply emits_emit. Qed.

Lemma emits_update u out :
  P (EUpdateExecution u) -> P (EUpdateRejected u) ->
  emits P (updateScheduleExecution u out).
Proof.
  intros Hu Hr w. unfold updateScheduleExecution.
  destruct out; eexists [_]; (split; [done|]); by constructor.
Qed.

Lemma emits_call {A} c (out : Outcome A) effect :
  (forall b, P (ECall c b)) -> emits P (call c out effect).
Proof.
  intros Hc w. unfold call.
  destruct out; eexists [_]; (split; [done|]); by constructor.
Qed.

Lemma emits_bind {A B} (m : M A) (k : A -> M B) :
  emits P m -> (forall a, emits P (k a)) -> emits P (bind m k).
Proof.
  intros Hm Hk w. unfold bind. destruct (Hm w) as (evs & Ht & Hevs).
  destruct (m w) as [[a| |e] w'] eqn:Hmw; simpl in Ht.
  - destruct (Hk a w') as (evs' & Ht' & Hevs').
    exists (evs ++ evs')%list. split; [|by apply Forall_app].
    by rewrite Ht', Ht, app_assoc.
  - by exists evs.
  - by exists evs.
Qed.

Lemma emits_try_catch {A} (m : M A) (handler : string -> M A) :
  emits P m -> (forall e, emits P (handler e)) -> emits P (try_catch m handler).
Proof.
  intros Hm Hh w. unfold try_catch. destruct (Hm w) as (evs & Ht & Hevs).
  destruct (m w) as [[a| |e] w'] eqn:Hmw; simpl in Ht.
  - by exists evs.
  - by exists evs.
  - destruct (Hh e w') as (evs' & Ht' & Hevs').
    exists (evs ++ evs')%list. split; [|by apply Forall_app].
    by rewrite Ht', Ht, app_assoc.
Qed.

Lemma emits_when b (m : M unit) : emits P m -> emits P (when b m).
Proof. intros Hm. destruct b; [exact Hm|apply emits_ret]. Qed.

Lemma emits_for_each {A} (xs : list A) (body : A -> M unit) :
  (forall x, emits P (body x)) -> emits P (for_each xs body).
Proof.
  intros Hb. induction xs as [|x xs IH]; simpl.
  - apply emits_ret.
  - apply emits_bind; [apply Hb|intros _; exact IH].
Qed.

End Emits.

(** *** The loops *)

Lemma logs_only_ret : logs_only (ret tt).
Proof. intros w. exists []. simpl. rewrite app_nil_r. by destruct w. Qed.

Lemma logs_only_log line : logs_only (log line).
Proof. intros w. by exists [line]. Qed.

Lemma logs_only_seq (m k : M unit) :
  logs_only m -> logs_only k -> logs_only (bind m (fun _ => k)).
Proof.
  intros Hm Hk w. destruct (Hm w) as (l1 & H1).
  unfold bind. rewrite H1. destruct (Hk {| docker := docker w; trace := trace w ++ map ELog l1 |}) as (l2 & H2).
  rewrite H2. exists (l1 ++ l2)%list. simpl. by rewrite map_app, app_assoc.
Qed.

Lemma logs_only_when b m : logs_only m -> logs_only (when b m).
Proof. intros Hm. destruct b; [exact Hm|apply logs_only_ret]. Qed.

Lemma logs_only_for_each {A} (xs : list A) (body : A -> M unit) :
  (forall x, logs_only (body x)) -> logs_only (for_each xs body).
Proof.
  intros Hb. induction xs as [|x xs IH]; simpl.
  - apply logs_only_ret.
  - apply logs_only_seq; [apply Hb|exact IH].
Qed.

Ltac logs_only_tac :=
  repeat first
    [ apply logs_only_ret | apply logs_only_log | apply logs_only_seq
    | apply logs_only_when | apply logs_only_for_each; intros ?
    | match goal with
      | |- logs_only (match ?x with _ => _ end) => destruct x
      end ].

Lemma log_primary_networks_logs opts primary nets :
  logs_only (log_primary_networks opts primary nets).
Proof. unfold log_primary_networks, log_primary. logs_only_tac. Qed.

Lemma log_device_requests_logs opts : logs_only (log_device_requests opts).
Proof. unfold log_device_requests, log_device_request. logs_only_tac. Qed.

Lemma reconnect_run o new ni w :
  reconnect o new ni w
  = (Val tt, {| docker := docker w;
                trace := trace w ++ reconnect_events o new ni |}).
Proof.
  unfold reconnect, reconnect_events. exec.
  destruct (o_connect o (ni_name ni)); exec; [|by rewrite <- app_assoc].
  destruct (nonempty (ni_aliases ni)), (truthy (ni_ipv4Address ni)),
    (ni_gwPriority ni); exec; by rewrite <- ?app_assoc.
Qed.

Lemma reconnect_all_run o new nets : forall w,
  reconnect_all o new nets w
  = (Val tt, {| docker := docker w;
                trace := trace w ++ concat (map (reconnect_events o new) nets) |}).
Proof.
  unfold reconnect_all. induction nets as [|ni nets IH]; intros w; simpl.
  - unfold ret. rewrite app_nil_r. by destruct w.
  - unfold bind. rewrite reconnect_run, IH. simpl. by rewrite app_assoc.
Qed.

#[local] Arguments log_primary_networks : simpl never.
#[local] Arguments log_device_requests : simpl never.
#[local] Arguments reconnect_all : simpl never.
#[local] Arguments additional_networks : simpl never.

Lemma calls_app (t1 t2 : list Event) : calls (t1 ++ t2) = (calls t1 ++ calls t2)%list.
Proof. unfold calls. apply omap_app. Qed.

Lemma calls_logs lines : calls (map ELog lines) = [].
Proof. induction lines; simpl; [done|]. exact IHlines. Qed.

Lemma connect_attempts_app t1 t2 :
  connect_attempts (t1 ++ t2) = (connect_attempts t1 ++ connect_attempts t2)%list.
Proof. unfold connect_attempts. by rewrite calls_app, List.filter_app. Qed.

Lemma connect_attempts_logs lines : connect_attempts (map ELog lines) = [].
Proof. unfold connect_attempts. by rewrite calls_logs. Qed.

Lemma calls_reconnect o new ni :
  calls (reconnect_events o new ni) = [CConnectNetwork (ni_name ni) new ni].
Proof.
  unfold reconnect_events.
  destruct (o_connect o (ni_name ni)); [|done].
  destruct (nonempty (ni_aliases ni)), (truthy (ni_ipv4Address ni)),
    (ni_gwPriority ni); done.
Qed.

Lemma calls_reconnect_all o new nets :
  calls (concat (map (reconnect_events o new) nets))
  = map (fun ni => CConnectNetwork (ni_name ni) new ni) nets.
Proof.
  induction nets as [|ni nets IH]; [done|].
  simpl. by rewrite calls_app, calls_reconnect, IH.
Qed.

Lemma filter_connect_all new (nets : list NetworkInfo) :
  List.filter is_connect (map (fun ni => CConnectNetwork (ni_name ni) new ni) nets)
  = map (fun ni => CConnectNetwork (ni_name ni) new ni) nets.
Proof. induction nets as [|ni nets IH]; simpl; [done|]. by rewrite IH. Qed.

Lemma connect_attempts_reconnect_all o new nets :
  connect_attempts (concat (map (reconnect_events o new) nets))
  = map (fun ni => CConnectNetwork (ni_name ni) new ni) nets.
Proof.
  unfold connect_attempts. by rewrite calls_reconnect_all, filter_connect_all.
Qed.

Lemma no_start_in_connects new (nets : list NetworkInfo) :
  existsb is_start (map (fun ni => CConnectNetwork (ni_name ni) new ni) nets) = false.
Proof. induction nets as [|ni nets IH]; simpl; [done|]. exact IH. Qed.

Lemma warning_logged o new nets ni e :
  In ni nets -> o_connect o (ni_name ni) = Throws e ->
  In (ELog (connect_warning ni e)) (concat (map (reconnect_events o new) nets)).
Proof.
  intros Hin Hthrow. apply in_concat. exists (reconnect_events o new ni).
  split; [by apply in_map|].
  unfold reconnect_events. rewrite Hthrow. simpl. auto.
Qed.

Ltac use_loops :=
  repeat match goal with
  | |- context [log_primary_networks ?a ?b ?c ?w] =>
      let lines := fresh "lines" in let H := fresh "Hloop" in
      destruct (log_primary_networks_logs a b c w) as (lines & H); rewrite H; clear H
  | |- context [log_device_requests ?a ?w] =>
      let lines := fresh "lines" in let H := fresh "Hloop" in
      destruct (log_device_requests_logs a w) as (lines & H); rewrite H; clear H
  | |- context [reconnect_all ?o ?n ?nets ?w] => rewrite (reconnect_all_run o n nets w)
  end.

Lemma nonempty_false {A} (l : list A) : nonempty l = false -> l = [].
Proof. by destruct l. Qed.


Lemma calls_cons e e' t :
  calls (e :: e' :: t) = (calls [e] ++ calls (e' :: t))%list.
Proof. by destruct e. Qed.

Lemma calls_cons_app e t1 t2 :
  calls (e :: (t1 ++ t2)) = (calls [e] ++ calls (t1 ++ t2))%list.
Proof. by destruct e. Qed.

Lemma connect_attempts_cons e e' t :
  connect_attempts (e :: e' :: t)
  = (connect_attempts [e] ++ connect_attempts (e' :: t))%list.
Proof. apply (connect_attempts_app [e] (e' :: t)). Qed.

Lemma connect_attempts_cons_app e t1 t2 :
  connect_attempts (e :: (t1 ++ t2))
  = (connect_attempts [e] ++ connect_attempts (t1 ++ t2))%list.
Proof. apply (connect_attempts_app [e] (t1 ++ t2)). Qed.

Create Rewrite HintDb trace.

#[local] Hint Rewrite calls_app calls_logs calls_reconnect_all
  connect_attempts_app connect_attempts_logs connect_attempts_reconnect_all
  existsb_app no_start_in_connects : trace.


Lemma no_stop_in_connects new (nets : list NetworkInfo) :
  existsb is_stop (map (fun ni => CConnectNetwork (ni_name ni) new ni) nets) = false.
Proof. induction nets as [|ni nets IH]; simpl; [done|]. exact IH. Qed.

Lemma existsb_logs p lines :
  (forall l, p (ELog l) = false) -> existsb p (map ELog lines) = false.
Proof. intros Hp. induction lines as [|l lines IH]; simpl; [done|]. by rewrite Hp. Qed.

Lemma not_created_in_reconnect o new nets :
  existsb is_created (concat (map (reconnect_events o new) nets)) = false.
Proof.
  induction nets as [|ni nets IH]; [done|].
  simpl. rewrite existsb_app, IH, orb_false_r.
  unfold reconnect_events.
  destruct (o_connect o (ni_name ni)); [|done].
  destruct (nonempty (ni_aliases ni)), (truthy (ni_ipv4Address ni)),
    (ni_gwPriority ni); done.
Qed.

#[local] Hint Rewrite no_stop_in_connects not_created_in_reconnect : trace.

(** Push an observation through a trace made of segments. *)
Ltac observe :=
  rewrite ?calls_cons, ?calls_cons_app, ?connect_attempts_cons,
    ?connect_attempts_cons_app;
  repeat (progress (autorewrite with trace;
                    rewrite ?existsb_logs by done;
                    cbn -[additional_networks]));
  rewrite ?app_nil_r, ?orb_false_r; try done.


(** *** Phases that leave the engine alone *)

Lemma quiet_logs lines : forallb quiet_event (map ELog lines) = true.
Proof. by induction lines. Qed.

Lemma scanImage_run target progress out (f : ScanProgress -> M unit) w :
  (forall p, logs_only (f p)) ->
  exists evs,
    scanImage target progress out f w
    = (match out with Returns rs => Val rs | Throws e => Exc e end,
       {| docker := docker w; trace := trace w ++ evs |})
    /\ forallb quiet_event evs = true.
Proof.
  intros Hf. unfold scanImage, bind.
  destruct (logs_only_for_each progress f Hf w) as (lines & ->).
  unfold call. destruct out; cbn.
  - exists (map ELog lines ++ [ECall (CScanImage target) true])%list.
    split; [by rewrite app_assoc|].
    by rewrite forallb_app, quiet_logs.
  - exists (map ELog lines ++ [ECall (CScanImage target) false])%list.
    split; [by rewrite app_assoc|].
    by rewrite forallb_app, quiet_logs.
Qed.

Lemma on_progress_logs p : logs_only (on_progress p).
Proof. unfold on_progress. logs_only_tac. Qed.

Lemma on_progress_current_logs p : logs_only (on_progress_current p).
Proof. unfold on_progress_current. logs_only_tac. Qed.

Lemma save_scan_run image out warn ir w :
  exists evs,
    save_scan image out warn ir w
    = (Val tt, {| docker := docker w; trace := trace w ++ evs |})
    /\ forallb quiet_event evs = true.
Proof.
  unfold save_scan. exec.
  destruct (out ir.1) as [[]|e]; [|destruct warn]; exec.
  - by eexists.
  - eexists. split; [by rewrite <- !app_assoc|done].
  - by eexists.
Qed.

Lemma save_scans_run image results out warn : forall w,
  exists evs,
    save_scans image results out warn w
    = (Val tt, {| docker := docker w; trace := trace w ++ evs |})
    /\ forallb quiet_event evs = true.
Proof.
  unfold save_scans. generalize 0%nat.
  induction results as [|r results IH]; intros n w; simpl.
  - exists []. unfold ret. rewrite app_nil_r. by destruct w.
  - unfold bind.
    destruct (save_scan_run image out warn (n, r) w) as (evs & -> & Hq).
    destruct (IH (S n) {| docker := docker w; trace := trace w ++ evs |})
      as (evs' & -> & Hq').
    exists (evs ++ evs')%list. cbn. split; [by rewrite app_assoc|].
    by rewrite forallb_app, Hq, Hq'.
Qed.

Lemma current_scan_summary_run h o criteria cur w :
  exists cs evs,
    current_scan_summary h o criteria cur w
    = (Val cs, {| docker := docker w; trace := trace w ++ evs |})
    /\ forallb quiet_event evs = true.
Proof.
  unfold current_scan_summary.
  destruct criteria;
    try (exists None, []; unfold ret; rewrite app_nil_r; by destruct w).
  exec. destruct (o_cachedScan o) as [[cached|]|e]; exec.
  - eexists _, _. split; [by rewrite <- !app_assoc|done].
  - match goal with
    | |- context [scanImage ?t ?p ?out ?f ?w'] =>
        destruct (scanImage_run t p out f w' on_progress_current_logs)
          as (evs & -> & Hq)
    end.
    destruct (o_scanCurrent o) as [rs|e]; exec.
    + destruct (nonempty rs); exec.
      * match goal with
        | |- context [save_scans ?i ?r ?out ?b ?w'] =>
            destruct (save_scans_run i r out b w') as (evs' & -> & Hq')
        end.
        exec. eexists _, _. split; [by rewrite <- !app_assoc|].
        rewrite !forallb_app, Hq, Hq'. done.
      * eexists _, _. split; [by rewrite <- !app_assoc|].
        rewrite !forallb_app, Hq. done.
    + eexists _, _. split; [by rewrite <- !app_assoc|].
      rewrite !forallb_app, Hq. done.
  - eexists _, _. split; [by rewrite <- !app_assoc|done].
Qed.

(** *** The first part of the task and the last *)

Lemma prepare_val h o cname w t w1 :
  prepare h o cname w = (Val t, w1) ->
  docker w1 = docker w
  /\ isDigestBasedImage h (t_image t) = false
  /\ exists evs, trace w1 = (trace w ++ evs)%list /\ forallb quiet_event evs = true.
Proof.
  unfold prepare. exec.
  repeat (split_next; exec; try done).
  all: intros [= <- <-]; cbn.
  all: split; [done|split; [done|]].
  all: eexists; (split; [by rewrite <- !app_assoc|done]).
Qed.

Ltac emits_tac :=
  repeat first
    [ apply emits_ret | apply emits_return | apply emits_throw
    | apply emits_log; reflexivity | apply emits_update; reflexivity
    | apply emits_call; intros ?; reflexivity
    | apply emits_bind; [|intros ?] | apply emits_try_catch; [|intros ?]
    | apply emits_when | apply emits_for_each; intros ?
    | progress cbv zeta
    | match goal with
      | |- emits _ (match ?x with _ => _ end) => destruct x
      end ].

Lemma recreateContainer_no_gate h o cname :
  emits not_gate (recreateContainer h o cname).
Proof.
  unfold recreateContainer, log_primary_networks, log_primary,
    log_device_requests, log_device_request, reconnect_all, reconnect.
  emits_tac.
Qed.

Lemma updateStackContainer_no_gate o stack service :
  emits not_gate (updateStackContainer o stack service).
Proof. unfold updateStackContainer. emits_tac. Qed.

Lemma finish_update_no_gate h o cname t scans :
  emits not_gate (finish_update h o cname t scans).
Proof.
  unfold finish_update, update_container, report, sendEventNotification.
  emits_tac.
Qed.

(** *** The engine after the steps of the safe pull *)

Lemma tags_pull key new d : tags (pull_effect key new d) !! key = Some new.
Proof. unfold pull_effect. simpl. apply lookup_insert_eq. Qed.

Lemma tags_tag_same key image d : tags (tag_effect key image d) !! key = Some image.
Proof. unfold tag_effect, with_tags. simpl. apply lookup_insert_eq. Qed.

Lemma tags_tag_other key key' image d :
  key <> key' -> tags (tag_effect key image d) !! key' = tags d !! key'.
Proof. intros H. unfold tag_effect, with_tags. simpl. by apply lookup_insert_ne. Qed.

Lemma tags_remove_keep image key other d :
  tags d !! key = Some other -> other <> image ->
  tags (remove_image_effect image d) !! key = Some other.
Proof.
  intros Hk Hne. unfold remove_image_effect. simpl.
  by apply map_lookup_filter_Some.
Qed.

Lemma images_remove image d : image ∉ images (remove_image_effect image d).
Proof. unfold remove_image_effect. simpl. set_solver. Qed.

Lemma images_remove_twice image d :
  image ∉ images d -> image ∉ images (remove_image_effect image d).
Proof. intros _. apply images_remove. Qed.

Lemma containers_pull key new d : containers (pull_effect key new d) = containers d.
Proof. done. Qed.
Lemma containers_tag key image d : containers (tag_effect key image d) = containers d.
Proof. done. Qed.
Lemma containers_remove image d :
  containers (remove_image_effect image d) = containers d.
Proof. done. Qed.

Lemma pair_eta {A B} (p : A * B) : (p.1, p.2) = p.
Proof. by destruct p. Qed.

(** *** Observations on traces made of segments *)

Lemma terminal_writes_app t1 t2 :
  terminal_writes (t1 ++ t2) = (terminal_writes t1 ++ terminal_writes t2)%list.
Proof. unfold terminal_writes. apply omap_app. Qed.

Lemma terminal_writes_quiet evs :
  forallb quiet_event evs = true -> terminal_writes evs = [].
Proof.
  induction evs as [|e evs IH]; [done|]. simpl. intros [He Hq]%andb_true_iff.
  destruct e; try done; simpl; auto.
Qed.

Lemma gate_verdicts_app t1 t2 :
  gate_verdicts (t1 ++ t2) = (gate_verdicts t1 ++ gate_verdicts t2)%list.
Proof. unfold gate_verdicts. apply omap_app. Qed.

Lemma gate_verdicts_cons e e' t :
  gate_verdicts (e :: e' :: t)
  = (gate_verdicts [e] ++ gate_verdicts (e' :: t))%list.
Proof. apply (gate_verdicts_app [e] (e' :: t)). Qed.

Lemma gate_verdicts_cons_app e t1 t2 :
  gate_verdicts (e :: (t1 ++ t2))
  = (gate_verdicts [e] ++ gate_verdicts (t1 ++ t2))%list.
Proof. apply (gate_verdicts_app [e] (t1 ++ t2)). Qed.

Lemma gate_verdicts_quiet evs :
  forallb quiet_event evs = true -> gate_verdicts evs = [].
Proof.
  induction evs as [|e evs IH]; [done|]. simpl. intros [He Hq]%andb_true_iff.
  destruct e; try done; simpl; auto.
Qed.

Lemma gate_verdicts_not_gate evs : Forall not_gate evs -> gate_verdicts evs = [].
Proof.
  induction 1 as [|e evs He _ IH]; [done|].
  destruct e; try done; simpl; auto.
Qed.

Lemma recreator_quiet evs :
  forallb quiet_event evs = true -> existsb recreator_call (calls evs) = false.
Proof.
  induction evs as [|e evs IH]; [done|]. simpl. intros [He Hq]%andb_true_iff.
  destruct e as [| | |c b| | |]; try done; simpl; auto.
  rewrite (IH Hq), orb_false_r. by destruct c.
Qed.

Ltac use_scan_loops :=
  repeat match goal with
  | |- context [scanImage ?t ?p ?out on_progress ?w] =>
      let evs := fresh "evs" in let H := fresh "Hloop" in let Hq := fresh "Hq" in
      destruct (scanImage_run t p out on_progress w on_progress_logs)
        as (evs & H & Hq); rewrite H; clear H
  | |- context [save_scans ?i ?r ?out ?b ?w] =>
      let evs := fresh "evs" in let H := fresh "Hloop" in let Hq := fresh "Hq" in
      destruct (save_scans_run i r out b w) as (evs & H & Hq); rewrite H; clear H
  | |- context [current_scan_summary ?h ?o ?c ?i ?w] =>
      let cs := fresh "cs" in
      let evs := fresh "evs" in let H := fresh "Hloop" in let Hq := fresh "Hq" in
      destruct (current_scan_summary_run h o c i w) as (cs & evs & H & Hq);
      rewrite H; clear H
  end.

Ltac use_finish :=
  match goal with
  | |- context [finish_update ?h ?o ?c ?t ?s ?w] =>
      let evs := fresh "evs" in let H := fresh "Hfin" in let Hg := fresh "Hng" in
      let r := fresh "r" in let d' := fresh "d'" in let tr := fresh "tr" in
      destruct (finish_update_no_gate h o c t s w) as (evs & H & Hg);
      destruct (finish_update h o c t s w) as [r [d' tr]];
      cbn in H; subst tr
  end.

#[local] Arguments scanImage : simpl never.
#[local] Arguments save_scans : simpl never.
#[local] Arguments current_scan_summary : simpl never.
#[local] Arguments finish_update : simpl never.
#[local] Arguments prepare : simpl never.


Lemma terminal_writes_cons e e' t :
  terminal_writes (e :: e' :: t)
  = (terminal_writes [e] ++ terminal_writes (e' :: t))%list.
Proof. apply (terminal_writes_app [e] (e' :: t)). Qed.

Lemma terminal_writes_cons_app e t1 t2 :
  terminal_writes (e :: (t1 ++ t2))
  = (terminal_writes [e] ++ terminal_writes (t1 ++ t2))%list.
Proof. apply (terminal_writes_app [e] (t1 ++ t2)). Qed.

#[local] Hint Rewrite terminal_writes_app gate_verdicts_app : trace.

(** Push the observations of a finished run through its trace. *)
Ltac use_quiet :=
  repeat match goal with
  | Hq : forallb quiet_event ?e = true |- context [gate_verdicts ?e] =>
      rewrite (gate_verdicts_quiet e Hq)
  | Hq : Forall not_gate ?e |- context [gate_verdicts ?e] =>
      rewrite (gate_verdicts_not_gate e Hq)
  | Hq : forallb quiet_event ?e = true |- context [terminal_writes ?e] =>
      rewrite (terminal_writes_quiet e Hq)
  | Hq : forallb quiet_event ?e = true
    |- context [existsb recreator_call (calls ?e)] =>
      rewrite (recreator_quiet e Hq)
  end.

Ltac observe_run :=
  unfold final_status, final_details, skip_reason;
  rewrite ?calls_cons, ?calls_cons_app, ?terminal_writes_cons,
    ?terminal_writes_cons_app, ?gate_verdicts_cons, ?gate_verdicts_cons_app;
  repeat (progress (autorewrite with trace; use_quiet; cbn [app]));
  cbn; rewrite ?app_nil_r, ?orb_false_r.

(** *** Reading strings the way the code does *)

Lemma truthy_Some s : s <> "" -> truthy (Some s) = true.
Proof. intros H. unfold truthy. by apply String.eqb_neq in H as ->. Qed.

Lemma or_default_Some s dflt : s <> "" -> or_default (Some s) dflt = s.
Proof. intros H. unfold or_default. by apply String.eqb_neq in H as ->. Qed.

(** *** The checks that end a run before anything is pulled *)

(** The self-update check answers for a digest-pinned image before it asks
    the registry. *)
Lemma check_pinned auth co ij img :
  SelfCheck.inspectResponse co = Returns (Some ij) ->
  SelfCheck.ij_Image ij = Some img ->
  str_includes "@sha256:" img = true ->
  SelfCheck.updateAvailable (SelfCheck.GET auth co).1 <> Some true
  /\ existsb SelfCheck.is_registry_request (SelfCheck.GET auth co).2 = false.
Proof.
  intros Hins Himg Hpin. unfold SelfCheck.GET, SelfCheck.check.
  rewrite Hins, Himg.
  assert (Himg' : or_default (Some img) "" = img).
  { unfold or_default. destruct (String.eqb_spec img ""); by subst. }
  rewrite Himg', Hpin.
  destruct (SelfCheck.authEnabled auth && negb (SelfCheck.isAdmin auth)); [done|].
  destruct (SelfCheck.ownContainerId co) as [cid|]; [|done].
  destruct (String.eqb cid ""); [done|].
  destruct (String.eqb img ""); done.
Qed.






(** C4, as the code has it. For a container whose configured image is
    digest-pinned, no run makes a registry check, a pull or any other change
    to the engine, whatever the collaborators answer. When the task gets as
    far as the inspection and the ledger accepts the write, the run returns
    with a single terminal write, ['skipped']; the reason is the
    pinned-to-digest one, unless the image is classified as a system
    container (Dockhand or Hawser): that guard comes first and gives its own
    reason. The self-update check answers for such an image without a
    registry request. *)
Theorem digest_pinned_is_skipped h o cname d data config img :
  o_inspect o = Returns data ->
  Config data = Some config ->
  Config_Image config = Some img ->
  img <> "" ->
  isDigestBasedImage h img = true ->
  (existsb is_registry_check (trace (run h o cname d).2) = false
   /\ existsb changes_engine (calls (trace (run h o cname d).2)) = false
   /\ docker (run h o cname d).2 = d)
  /\ (forall cs c,
        o_createExecution o = Returns tt ->
        o_write o AtStarted = Returns tt ->
        o_lastChecked o = Returns tt ->
        o_listContainers o = Returns cs ->
        find_container cname cs = Some c ->
        o_write o (pinned_site h img) = Returns tt ->
        (run h o cname d).1 = Ret
        /\ u_status <$> terminal_writes (trace (run h o cname d).2) = [Some skipped]
        /\ skip_reason (trace (run h o cname d).2)
           = Some (if truthy (isSystemContainer h img)
                   then system_reason (isSystemContainer h img)
                   else pinned_reason))
  /\ (forall auth co ij,
        SelfCheck.inspectResponse co = Returns (Some ij) ->
        SelfCheck.ij_Image ij = Some img ->
        str_includes "@sha256:" img = true ->
        SelfCheck.updateAvailable (SelfCheck.GET auth co).1 <> Some true
        /\ existsb SelfCheck.is_registry_request (SelfCheck.GET auth co).2 = false).
Proof.
  intros Hins Hcfg Himg Hne Hpin.
  pose proof (truthy_Some img Hne) as Htr.
  assert (Hshow : show_undefined (Some img) = img) by done.
  split; [|split; [|intros; by eapply check_pinned]].
  - remember (run h o cname d) as R eqn:HR. revert HR.
    unfold run, runContainerUpdate, update_body, on_error, prepare.
    exec.
    repeat (first [rewrite Hins | rewrite Hcfg | rewrite Himg | rewrite Htr
                  | rewrite Hshow | rewrite Hpin | split_next];
            exec).
    all: by intros ->.
  - intros cs c Hcreate Hstart Hlast Hlist Hfind Hw. unfold pinned_site in Hw.
    remember (run h o cname d) as R eqn:HR. revert HR.
    unfold run, runContainerUpdate, update_body, on_error, prepare.
    exec.
    rewrite Hcreate. exec. rewrite Hstart. exec. rewrite Hlast. exec.
    rewrite Hlist. exec. rewrite Hfind. exec. rewrite Hins. exec.
    rewrite Hcfg, Himg, Htr, Hshow. exec.
    destruct (truthy (isSystemContainer h img)); exec.
    + rewrite Hw. exec. by intros ->.
    + rewrite Hpin. exec. rewrite Hw. exec. by intros ->.
Qed.

Lemma digest_pinned_is_skipped_witness :
  skip_reason (trace (run example_helpers (oracle_for pinned_app "none") "web-1"
                          (engine "sha256:ccc")).2) = Some pinned_reason
  /\ existsb is_registry_check
       (trace (run example_helpers (oracle_for pinned_app "none") "web-1"
                   (engine "sha256:ccc")).2) = false.
Proof.
  destruct (digest_pinned_is_skipped example_helpers (oracle_for pinned_app "none")
              "web-1" (engine "sha256:ccc") pinned_app
              {| Config_Image := Some "app@sha256:ccc";
                 Config_Labels := Some (labels_of []) |}
              "app@sha256:ccc")
    as [(Hcheck & _) [Hskip _]];
    [reflexivity | reflexivity | reflexivity | discriminate | reflexivity | ].
  destruct (Hskip [web1] web1) as (_ & _ & Hreason); try reflexivity.
  split; [exact Hreason | exact Hcheck].
Defined.

(** C4 as stated fails in two ways. A digest-pinned image that the first
    guard takes for Dockhand itself is skipped, but not for the
    pinned-to-digest reason. And when the ledger rejects the write of the
    skip, the handler of the task records ['failed']. *)
Lemma digest_pinned_counterexample :
  (isDigestBasedImage example_helpers "fnsys/dockhand@sha256:ccc" = true
   /\ final_status
        (trace (run example_helpers (oracle_for pinned_dockhand "none") "web-1"
                    (engine "sha256:ccc")).2) = Some skipped
   /\ skip_reason
        (trace (run example_helpers (oracle_for pinned_dockhand "none") "web-1"
                    (engine "sha256:ccc")).2)
      = Some "Cannot auto-update Dockhand itself"
   /\ skip_reason
        (trace (run example_helpers (oracle_for pinned_dockhand "none") "web-1"
                    (engine "sha256:ccc")).2)
      <> Some pinned_reason)
  /\ (isDigestBasedImage example_helpers "app@sha256:ccc" = true
      /\ u_status <$> terminal_writes
           (trace (run example_helpers pinned_unrecorded "web-1"
                       (engine "sha256:ccc")).2) = [Some failed]).
Proof. repeat split; try (by vm_compute). Qed.

(** C5, as the code has it. In every run in which the registry check
    answers that the image is local-only, or reports an error, or reports no
    update, nothing is pulled, tagged, removed or recreated: the engine is
    as it was, whatever the later calls answer. When the ledger accepts the
    write of the skip, the task returns normally and that write, ['skipped'],
    is the only terminal one. *)
Theorem registry_skip h o cname d rc :
  o_registryCheck o = Returns rc ->
  isLocalImage rc = true \/ truthy (rc_error rc) = true \/ hasUpdate rc = false ->
  existsb is_registry_check (trace (run h o cname d).2) = true ->
  existsb changes_engine (calls (trace (run h o cname d).2)) = false
  /\ docker (run h o cname d).2 = d
  /\ (o_write o (skip_site rc) = Returns tt ->
      (run h o cname d).1 = Ret
      /\ u_status <$> terminal_writes (trace (run h o cname d).2) = [Some skipped]
      /\ final_status (trace (run h o cname d).2) = Some skipped).
Proof.
  intros Hrc Hcase.
  remember (run h o cname d) as R eqn:HR. revert HR.
  unfold run, runContainerUpdate, update_body, on_error, prepare, skip_site.
  exec.
  repeat (first [rewrite Hrc | split_next]; exec; try (by intros ->);
          try solve [exfalso; destruct (hasUpdate _);
                     simpl in *; intuition congruence]).
Qed.

Lemma registry_skip_witness :
  final_status
    (trace (run example_helpers
                (example_oracle app_1_0 "grype" None up_to_date (Returns tt)
                   (Returns []) (Returns tt) stack_ok (fun _ => Returns tt)
                   (Returns tt))
                "web-1" (engine "sha256:aaa")).2) = Some skipped.
Proof.
  refine (proj2 (proj2 (proj2 (proj2
    (registry_skip example_helpers _ "web-1" (engine "sha256:aaa") up_to_date
       _ _ _)) _))).
  - reflexivity.
  - right; right; reflexivity.
  - reflexivity.
  - reflexivity.
Defined.

(** C5 as stated fails when the ledger rejects the write of the skip: the
    registry check reports no update, the rejection reaches the handler of
    the task, and the only terminal status recorded is ['failed']. *)
Lemma registry_skip_unrecorded_counterexample :
  o_registryCheck up_to_date_unrecorded = Returns up_to_date
  /\ hasUpdate up_to_date = false
  /\ existsb is_registry_check
       (trace (run example_helpers up_to_date_unrecorded "web-1"
                   (engine "sha256:aaa")).2) = true
  /\ u_status <$> terminal_writes
       (trace (run example_helpers up_to_date_unrecorded "web-1"
                   (engine "sha256:aaa")).2) = [Some failed]
  /\ final_status
       (trace (run example_helpers up_to_date_unrecorded "web-1"
                   (engine "sha256:aaa")).2) = Some failed.
Proof. repeat split; by vm_compute. Qed.

(** *** The gate *)

(** The call site passes a summary of the running image only for the
    more-than-current criterion (line 309). *)
Lemma current_summary_only_when_compared h o criteria cur w :
  criteria <> more_than_current ->
  current_scan_summary h o criteria cur w = (Val None, w).
Proof. intros H. by destruct criteria. Qed.

(** *** Where the code departs from what it documents *)

(** C3 fails on the code: for a container of a stack whose compose file is
    known, [docker compose up] ending with an error makes
    [updateStackContainer] return [false], the value its documentation
    reserves for a stack that is not found; the task then logs that the stack
    is not managed, recreates the single container and records a success. *)
Theorem known_stack_falls_back_on_compose_error :
  o_composeFile compose_failed_oracle
  = Returns {| cf_success := true; cf_content := Some "services: {}" |}
  /\ existsb recreator_call
       (calls (trace (run example_helpers compose_failed_oracle "web-1"
                          (engine "sha256:aaa")).2)) = true
  /\ logged (fallback_line "shop")
       (trace (run example_helpers compose_failed_oracle "web-1"
                   (engine "sha256:aaa")).2) = true
  /\ final_status
       (trace (run example_helpers compose_failed_oracle "web-1"
                   (engine "sha256:aaa")).2) = Some success.
Proof. repeat split; by vm_compute. Qed.

(** C6 fails on the code: the success notification is awaited inside the
    outer [try], after the terminal write. When it throws, the handler
    writes a second terminal status over the first. *)
Theorem notification_failure_rewrites_status :
  u_status <$> terminal_writes
     (trace (run example_helpers notify_fails_oracle "web-1"
                 (engine "sha256:aaa")).2)
  = [Some success; Some failed]
  /\ containers (docker (run example_helpers notify_fails_oracle "web-1"
                             (engine "sha256:aaa")).2) !! "c0ffee000002"
     = Some Up.
Proof. split; by vm_compute. Qed.

(** C1 fails on the code: between the pull, which moves the production tag
    to the pulled image, and the restore of the tag, a failure goes to the
    handler of the safe pull, which only records ['failed']. Here the
    lookup that follows the pull answers [null] (first run), or the engine
    rejects the restore (second run): the run ends ['failed'] before any
    promotion, no removal is attempted, the production tag resolves to the
    pulled image and that image stays. *)
Theorem failed_safe_pull_leaves_tag_on_pulled_image :
  tags (engine "sha256:aaa") !! ("app", "1.0") = Some "sha256:aaa"
  /\ (final_status
        (trace (run example_helpers lookup_null_oracle "web-1"
                    (engine "sha256:aaa")).2) = Some failed
      /\ returned_calls
           (trace (run example_helpers lookup_null_oracle "web-1"
                       (engine "sha256:aaa")).2)
         = [CLastChecked "web-1"; CListContainers;
            CInspectContainer "c0ffee000001"; CGetScannerSettings;
            CGetAutoUpdateSetting;
            CCheckImageUpdateAvailable "app:1.0" "sha256:aaa";
            CPullImage "app:1.0"; CGetImageIdByTag "app:1.0"]
      /\ tags (docker (run example_helpers lookup_null_oracle "web-1"
                           (engine "sha256:aaa")).2) !! ("app", "1.0")
         = Some "sha256:new"
      /\ "sha256:new"
         ∈ images (docker (run example_helpers lookup_null_oracle "web-1"
                               (engine "sha256:aaa")).2))
  /\ (final_status
        (trace (run example_helpers
                    (blocking_oracle (Throws "tag failed") (Returns tt))
                    "web-1" (engine "sha256:aaa")).2) = Some failed
      /\ returned_calls
           (trace (run example_helpers
                       (blocking_oracle (Throws "tag failed") (Returns tt))
                       "web-1" (engine "sha256:aaa")).2)
         = [CLastChecked "web-1"; CListContainers;
            CInspectContainer "c0ffee000001"; CGetScannerSettings;
            CGetAutoUpdateSetting;
            CCheckImageUpdateAvailable "app:1.0" "sha256:aaa";
            CPullImage "app:1.0"; CGetImageIdByTag "app:1.0"]
      /\ tags (docker (run example_helpers
                           (blocking_oracle (Throws "tag failed") (Returns tt))
                           "web-1" (engine "sha256:aaa")).2) !! ("app", "1.0")
         = Some "sha256:new"
      /\ "sha256:new"
         ∈ images (docker (run example_helpers
                               (blocking_oracle (Throws "tag failed") (Returns tt))
                               "web-1" (engine "sha256:aaa")).2)).
Proof.
  repeat split; by vm_compute.
Qed.

(** C2 fails on the code: the removal of the blocked image is awaited inside
    the [try] block of the scan, without the protection the later cleanup
    has (lines 436 to 438). When the engine refuses it, the rejection is
    handled as a scan failure: the gate has blocked the update, yet the run
    ends ['failed'], with the error of the removal as a scan error and no
    block reason (first run, where the second removal goes through); when
    the engine refuses that one too, the pulled image stays (second run). *)
Theorem blocked_update_fails_when_removal_is_refused :
  (gate_verdicts
     (trace (run example_helpers
                 (blocking_oracle (Returns tt) (Throws "image is in use"))
                 "web-1" (engine "sha256:aaa")).2) = [found_one]
   /\ terminal_writes
        (trace (run example_helpers
                    (blocking_oracle (Returns tt) (Throws "image is in use"))
                    "web-1" (engine "sha256:aaa")).2)
      = [failed_with "Vulnerability scan failed: image is in use"])
  /\ (gate_verdicts
        (trace (run example_helpers removal_refused_oracle "web-1"
                    (engine "sha256:aaa")).2) = [found_one]
      /\ terminal_writes
           (trace (run example_helpers removal_refused_oracle "web-1"
                       (engine "sha256:aaa")).2)
         = [failed_with "Failed to pull image: image is in use"]
      /\ "sha256:new"
         ∈ images (docker (run example_helpers removal_refused_oracle "web-1"
                               (engine "sha256:aaa")).2)).
Proof.
  repeat split; by vm_compute.
Qed.

(** *** The safe pull *)

(** Every way [prepare] ends leaves the engine alone and consults no gate. *)
Lemma prepare_quiet h o cname w :
  docker (prepare h o cname w).2 = docker w
  /\ exists evs, trace (prepare h o cname w).2 = (trace w ++ evs)%list
       /\ gate_verdicts evs = []
       /\ existsb recreator_call (calls evs) = false.
Proof.
  remember (prepare h o cname w) as R eqn:HR. revert HR.
  unfold prepare. exec.
  repeat (split_next; exec).
  all: intros ->; cbn [fst snd trace docker].
  all: split; [done|].
  all: eexists; (split; [by rewrite <- ?app_assoc|done]).
Qed.

Lemma gate_verdicts_started evs :
  gate_verdicts (ECreateExecution :: EUpdateExecution started :: evs)
  = gate_verdicts evs.
Proof. reflexivity. Qed.

(** What the target of a run that found an update was read from. *)
Lemma prepare_target h o cname w t w1 :
  prepare h o cname w = (Val t, w1) ->
  exists data config,
    o_inspect o = Returns data /\ Config data = Some config
    /\ Config_Image config = Some (t_image t)
    /\ t_currentImageId t = Image data.
Proof.
  unfold prepare. exec.
  repeat (split_next; exec; try done).
  all: intros [= <- <-]; cbn.
  all: repeat match goal with
       | H : match ?x with _ => _ end = _ |- _ => destruct x eqn:?; try done
       end.
  all: eexists _, _; repeat split; try eassumption; try reflexivity.
  all: match goal with
       | |- ?x = Some (show_undefined ?x) =>
           destruct x; [reflexivity|by unfold truthy in *]
       end.
Qed.



(** *** Recreation *)

(** C8. Once the replacement container exists, [recreateContainer] tries
    every secondary network in order, whatever the earlier attempts did; an
    attempt that throws leaves the warning line for that network in the log;
    the start step then runs exactly as it would have (it starts the
    container when the original was running); and the function returns
    [true] unless that start throws. *)
Theorem reconnect_failure_is_warning h o cname d cs c data config new :
  o_recreateList o = Returns cs ->
  find_container cname cs = Some c ->
  o_recreateInspect o = Returns data ->
  Config data = Some config ->
  o_create o = Returns new ->
  existsb is_created (trace (recreate h o cname d).2) = true ->
  connect_attempts (trace (recreate h o cname d).2)
  = map (fun ni => CConnectNetwork (ni_name ni) new ni)
        (additional_networks c config data)
  /\ (forall ni e, In ni (additional_networks c config data) ->
        o_connect o (ni_name ni) = Throws e ->
        In (ELog (connect_warning ni e)) (trace (recreate h o cname d).2))
  /\ existsb is_start (calls (trace (recreate h o cname d).2)) = State_Running data
  /\ (recreate h o cname d).1
     = Val (if State_Running data
            then match o_start o with Returns _ => true | Throws _ => false end
            else true).
Proof.
  intros Hlist Hfind Hins Hcfg Hnew.
  remember (recreate h o cname d) as R eqn:HR. revert HR.
  unfold recreate, recreateContainer.
  exec.
  repeat (first [rewrite Hlist | rewrite Hfind | rewrite Hins | rewrite Hcfg
                | rewrite Hnew | progress use_loops | split_next];
          exec).
  all: intros -> Hcreated; try done.
  all: cbn [fst snd trace] in *.
  all: repeat match goal with H : nonempty _ = false |- _ =>
         apply nonempty_false in H; try rewrite H end.
  all: split; [observe|split; [|split; [observe|done]]].
  all: intros ni e Hin Hthrow; try (by destruct Hin);
       try (pose proof (warning_logged o new _ ni e Hin Hthrow));
       rewrite ?in_app_iff; simpl; rewrite ?in_app_iff; try tauto.
Qed.



Lemma reconnect_failure_is_warning_witness :
  connect_attempts (trace (recreate example_helpers backend_down_oracle "web-1"
                                    (engine "sha256:aaa")).2)
  = map (fun ni => CConnectNetwork (ni_name ni) "c0ffee000002" ni)
        (additional_networks web1
           {| Config_Image := Some "app:1.0"; Config_Labels := Some (labels_of []) |}
           two_nets)
  /\ (recreate example_helpers backend_down_oracle "web-1" (engine "sha256:aaa")).1
     = Val true.
Proof.
  destruct (reconnect_failure_is_warning example_helpers backend_down_oracle "web-1"
              (engine "sha256:aaa") [web1] web1 two_nets
              {| Config_Image := Some "app:1.0"; Config_Labels := Some (labels_of []) |}
              "c0ffee000002")
    as (Hattempts & _ & _ & Hresult);
    [reflexivity | reflexivity | reflexivity | reflexivity | reflexivity
    | reflexivity | ].
  split; [exact Hattempts | exact Hresult].
Defined.


(** C9. When the original container is found and inspected, its removal
    returns (and, when it was running, its stop), and the engine creates the
    replacement, [recreateContainer] stops the original exactly when it was
    running, creates the replacement, and starts it exactly when the
    original was running. A container that was not running is neither
    stopped nor started: the function returns [true] and the replacement is
    in the created state, in place of the original. A running container's
    replacement is up once its start returns. Whatever the calls answer, a
    start is attempted only for a container that was running and whose
    replacement has been created. *)
Theorem start_iff_was_running h o cname d cs c data config new :
  o_recreateList o = Returns cs ->
  find_container cname cs = Some c ->
  o_recreateInspect o = Returns data ->
  existsb is_stop (calls (trace (recreate h o cname d).2)) = State_Running data
  /\ existsb is_start (calls (trace (recreate h o cname d).2))
     = State_Running data && existsb is_created (trace (recreate h o cname d).2)
  /\ (Config data = Some config ->
      o_removeContainer o = Returns tt ->
      o_create o = Returns new ->
      (State_Running data = true -> o_stop o = Returns tt) ->
      existsb is_created (trace (recreate h o cname d).2) = true
      /\ existsb is_start (calls (trace (recreate h o cname d).2))
         = State_Running data
      /\ (State_Running data = false ->
          (recreate h o cname d).1 = Val true
          /\ containers (docker (recreate h o cname d).2)
             = <[new := Created]> (delete (id c) (containers d)))
      /\ (State_Running data = true -> o_start o = Returns tt ->
          (recreate h o cname d).1 = Val true
          /\ containers (docker (recreate h o cname d).2) !! new = Some Up
          /\ (new <> id c ->
              containers (docker (recreate h o cname d).2) !! id c = None))).
Proof.
  intros Hlist Hfind Hins.
  assert (Hany : existsb is_stop (calls (trace (recreate h o cname d).2))
                 = State_Running data
                 /\ existsb is_start (calls (trace (recreate h o cname d).2))
                    = State_Running data
                      && existsb is_created (trace (recreate h o cname d).2)).
  { remember (recreate h o cname d) as R eqn:HR. revert HR.
    unfold recreate, recreateContainer.
    exec.
    repeat (first [rewrite Hlist | rewrite Hfind | rewrite Hins
                  | progress use_loops | split_next];
            exec).
    all: intros ->; cbn [fst snd trace docker] in *.
    all: split; by observe. }
  destruct Hany as [Hstopped Hstarted].
  split; [exact Hstopped|]. split; [exact Hstarted|].
  - intros Hcfg Hrm Hnew Hstop. clear Hstopped Hstarted.
    remember (recreate h o cname d) as R eqn:HR. revert HR.
    unfold recreate, recreateContainer.
    exec.
    rewrite Hlist. exec. rewrite Hfind. exec. rewrite Hins. exec.
    destruct (State_Running data) eqn:Hrun; exec;
      [rewrite (Hstop eq_refl); exec|].
    all: rewrite Hrm; exec; rewrite Hcfg; exec.
    all: repeat (first [rewrite Hnew | progress use_loops | split_next]; exec).
    all: intros ->; cbn [fst snd trace docker] in *.
    all: split; [by observe|split; [by observe|]].
    all: split; [try done|intros Hr Hst; try discriminate Hr; try discriminate Hst].
    all: split; [done|].
    all: unfold start_effect, create_effect, remove_container_effect, stop_effect,
           with_containers; cbn.
    all: split; [by rewrite lookup_insert_eq|].
    all: intros Hne; rewrite !lookup_insert_ne by done; apply lookup_delete_eq.
Qed.

Lemma start_iff_was_running_witness :
  existsb is_start
    (calls (trace (recreate example_helpers (oracle_for stopped_app "none") "web-1"
                            (engine "sha256:aaa")).2)) = false
  /\ containers (docker (recreate example_helpers (oracle_for stopped_app "none")
                                  "web-1" (engine "sha256:aaa")).2)
     = <[ "c0ffee000002" := Created ]>
         (delete "c0ffee000001" (containers (engine "sha256:aaa"))).
Proof.
  destruct (start_iff_was_running example_helpers (oracle_for stopped_app "none")
              "web-1" (engine "sha256:aaa") [web1] web1 stopped_app
              {| Config_Image := Some "app:1.0"; Config_Labels := Some (labels_of []) |}
              "c0ffee000002")
    as (_ & _ & Hrecreated); [reflexivity | reflexivity | reflexivity | ].
  destruct Hrecreated as (_ & Hstart & Hstopped & _);
    [reflexivity | reflexivity | reflexivity | discriminate | ].
  destruct (Hstopped eq_refl) as [_ Hstate].
  split; [exact Hstart | exact Hstate].
Defined.

(** *** What the task and its parts never do *)

Lemma last_write_failed t e :
  last (terminal_writes (t ++ [EUpdateExecution (failed_with e)])%list)
  = Some (failed_with e).
Proof. rewrite terminal_writes_app. simpl. apply last_snoc. Qed.

(** An exception leaves [runContainerUpdate] only from the two ledger calls
    made before the [try] block, or from its handler: the write of
    ['failed'] or the failure notification. In the last case ['failed'] is
    the status the ledger ends with. *)
Theorem uncaught_error_comes_from_the_handler h o cname d e :
  (run h o cname d).1 = Exc e ->
  o_createExecution o = Throws e
  \/ o_write o AtStarted = Throws e
  \/ o_write o AtFailed = Throws e
  \/ (o_notifyFailed o = Throws e
      /\ final_status (trace (run h o cname d).2) = Some failed).
Proof.
  unfold run, runContainerUpdate, on_error. exec.
  destruct (o_createExecution o) as [[]|e0] eqn:Hc; exec;
    [|intros [= ->]; by left].
  destruct (o_write o AtStarted) as [[]|e0] eqn:Hs; exec;
    [|intros [= ->]; right; by left].
  destruct (update_body h o cname _) as [[[]| |e'] [d' tr]]; cbn; try done.
  destruct (o_write o AtFailed) as [[]|e0] eqn:Hf; exec;
    [|intros [= ->]; right; right; by left].
  destruct (o_notifyFailed o) as [[]|e''] eqn:Hn; cbn; try done.
  intros [= ->]. right; right; right. split; [done|].
  unfold final_status.
  rewrite (terminal_writes_app _ [ECall _ false]). simpl. rewrite app_nil_r.
  by rewrite last_write_failed.
Qed.

Lemma uncaught_error_comes_from_the_handler_witness :
  o_createExecution create_refused_oracle = Throws "notification channel unreachable"
  \/ o_write create_refused_oracle AtStarted = Throws "notification channel unreachable"
  \/ o_write create_refused_oracle AtFailed = Throws "notification channel unreachable"
  \/ (o_notifyFailed create_refused_oracle = Throws "notification channel unreachable"
      /\ final_status (trace (run example_helpers create_refused_oracle "web-1"
                                  (engine "sha256:aaa")).2) = Some failed).
Proof.
  apply (uncaught_error_comes_from_the_handler example_helpers create_refused_oracle
           "web-1" (engine "sha256:aaa") "notification channel unreachable").
  by vm_compute.
Defined.


(** The failure a user of [recreateContainer] has to know: the original is
    removed before the replacement is created, so when the engine refuses
    the creation the function answers [false], nothing is started, and the
    container is gone. *)
Theorem create_failure_loses_container h o cname d cs c data config e :
  o_recreateList o = Returns cs ->
  find_container cname cs = Some c ->
  o_recreateInspect o = Returns data ->
  Config data = Some config ->
  (State_Running data = true -> o_stop o = Returns tt) ->
  o_removeContainer o = Returns tt ->
  o_create o = Throws e ->
  (recreate h o cname d).1 = Val false
  /\ containers (docker (recreate h o cname d).2) !! id c = None
  /\ last (trace (recreate h o cname d).2)
     = Some (ELog ("Failed to recreate container: " ++ e))
  /\ existsb is_start (calls (trace (recreate h o cname d).2)) = false.
Proof.
  intros Hlist Hfind Hins Hcfg Hstop Hrm Hnew.
  remember (recreate h o cname d) as R eqn:HR. revert HR.
  unfold recreate, recreateContainer.
  exec.
  rewrite Hlist. exec. rewrite Hfind. exec. rewrite Hins. exec.
  destruct (State_Running data) eqn:Hrun; exec;
    [rewrite (Hstop eq_refl); exec|].
  all: rewrite Hrm; exec; rewrite Hcfg; exec.
  all: repeat (first [rewrite Hnew | progress use_loops | split_next]; exec).
  all: intros ->; cbn [fst snd trace docker].
  all: split; [done|].
  all: split; [unfold remove_container_effect, with_containers; cbn;
               apply lookup_delete_eq|].
  all: split; [by rewrite ?app_comm_cons, last_snoc|].
  all: by observe.
Qed.

Lemma create_failure_loses_container_witness :
  (recreate example_helpers create_refused_oracle "web-1" (engine "sha256:aaa")).1
  = Val false
  /\ containers (docker (recreate example_helpers create_refused_oracle "web-1"
                                  (engine "sha256:aaa")).2) !! "c0ffee000001"
     = None.
Proof.
  destruct (create_failure_loses_container example_helpers create_refused_oracle
              "web-1" (engine "sha256:aaa") [web1] web1 app_1_0
              {| Config_Image := Some "app:1.0"; Config_Labels := Some (labels_of []) |}
              "no space left on device")
    as (Hres & Hgone & _);
    [reflexivity | reflexivity | reflexivity | reflexivity | reflexivity
    | reflexivity | reflexivity | ].
  split; [exact Hres | exact Hgone].
Defined.

Lemma compose_output_logs (lines : list string) :
  logs_only (for_each lines (fun line => log ("[compose] " ++ line))).
Proof. apply logs_only_for_each. intros line. apply logs_only_log. Qed.

Theorem updateStackContainer_true_iff o stack service d :
  exists b, (stack_update o stack service d).1 = Val b
    /\ (b = true <->
        exists cf r, o_composeFile o = Returns cf
                     /\ cf_success cf = true /\ truthy (cf_content cf) = true
                     /\ o_startStack o = Returns r /\ sr_success r = true)
    /\ (existsb is_stack_start (calls (trace (stack_update o stack service d).2))
        = true ->
        exists cf, o_composeFile o = Returns cf
                   /\ cf_success cf = true /\ truthy (cf_content cf) = true).
Proof.
  remember (stack_update o stack service d) as R eqn:HR. revert HR.
  unfold stack_update, updateStackContainer.
  exec.
  repeat (first
    [ match goal with
      | |- context [for_each ?l _ ?w] =>
          let lines := fresh "lines" in let Hl := fresh "Hl" in
          destruct (compose_output_logs l w) as (lines & Hl);
          unfold log, emit in Hl; cbn -[String.eqb] in Hl; rewrite Hl; clear Hl
      end
    | split_next ]; exec).
  all: intros ->; cbn [fst snd trace].
  all: eexists; split; [reflexivity|].
  all: repeat match goal with
       | H : negb _ || negb _ = false |- _ =>
           apply orb_false_iff in H as [?%negb_false_iff ?%negb_false_iff]
       end.
  all: split; [split|].
  all: try discriminate.
  all: try (intros _; eexists; eexists; repeat split; eassumption || reflexivity).
  all: try (intros _; eexists; repeat split; eassumption || reflexivity).
  all: try (intros (cf & r & Hcf & H1 & H2 & Hr & H3);
            try discriminate Hcf; try discriminate Hr;
            injection Hcf as <-; try (injection Hr as <-);
            first [ congruence
                  | match goal with
                    | H : negb _ || negb _ = true |- _ =>
                        rewrite H1, H2 in H; discriminate H
                    end ]).
Qed.

(** *** The aliases of the secondary networks *)

Lemma includes_In l x : includes l x = true <-> In x l.
Proof.
  unfold includes. rewrite existsb_exists. split.
  - intros (y & Hy & ->%String.eqb_eq). exact Hy.
  - intros Hx. exists x. split; [exact Hx|apply String.eqb_refl].
Qed.

Lemma NoDup_push (l : list string) x :
  List.NoDup l -> List.NoDup (if includes l x then l else (l ++ [x])%list).
Proof.
  intros Hl. destruct (includes l x) eqn:Hx; [exact Hl|].
  apply NoDup_ListNoDup, NoDup_app. split; [by apply NoDup_ListNoDup|].
  split; [|apply NoDup_singleton].
  intros y Hy ->%list_elem_of_singleton.
  apply list_elem_of_In, includes_In in Hy. congruence.
Qed.

Lemma In_push (l : list string) x y :
  In y (if includes l x then l else (l ++ [x])%list) <-> In y l \/ y = x.
Proof.
  destruct (includes l x) eqn:Hx.
  - apply includes_In in Hx. split; [tauto|]. intros [Hy | ->]; tauto.
  - rewrite in_app_iff. simpl. intuition.
Qed.

(** The aliases a secondary network is reconnected with. For a container
    of a compose stack the service name and the project-service name are
    among them, each once: no alias is repeated when the aliases the engine
    reported were distinct. Beyond these two names every alias comes from
    the engine's report, and the container's own id and short id are left
    out of what is taken from it. *)
Theorem compose_aliases_are_ensured c config netConf :
  (forall project service,
     label (Some config) "com.docker.compose.project" = Some project ->
     label (Some config) "com.docker.compose.service" = Some service ->
     project <> "" -> service <> "" ->
     In service (secondary_aliases c config netConf)
     /\ In (project ++ "-" ++ service) (secondary_aliases c config netConf))
  /\ (List.NoDup (default [] (Aliases netConf)) ->
      List.NoDup (default [] (DNSNames netConf)) ->
      List.NoDup (secondary_aliases c config netConf))
  /\ (forall a,
        In a (secondary_aliases c config netConf) ->
        (In a (default [] (Aliases netConf) ++ default [] (DNSNames netConf))
         /\ a <> id c /\ a <> String.substring 0 12 (id c))
        \/ Some a = label (Some config) "com.docker.compose.service"
        \/ exists project service,
             label (Some config) "com.docker.compose.project" = Some project
             /\ label (Some config) "com.docker.compose.service" = Some service
             /\ a = project ++ "-" ++ service).
Proof.
  unfold secondary_aliases.
  set (source := match Aliases netConf with
                 | Some (a :: l) => a :: l
                 | _ => match DNSNames netConf with Some d => d | None => [] end
                 end).
  set (kept := List.filter _ source).
  assert (Hsrc : forall a, In a kept ->
            In a (default [] (Aliases netConf) ++ default [] (DNSNames netConf))
            /\ a <> id c /\ a <> String.substring 0 12 (id c)).
  { intros a [Ha Hf]%filter_In.
    apply andb_true_iff in Hf as [H1%negb_true_iff%String.eqb_neq
                                    H2%negb_true_iff%String.eqb_neq].
    split; [|done]. rewrite in_app_iff. subst source.
    destruct (Aliases netConf) as [[|? ?]|]; destruct (DNSNames netConf); simpl in *;
      tauto. }
  assert (Hnd : List.NoDup (default [] (Aliases netConf)) ->
                List.NoDup (default [] (DNSNames netConf)) -> List.NoDup kept).
  { intros Ha Hd. apply List.NoDup_filter. subst source.
    destruct (Aliases netConf) as [[|? ?]|]; destruct (DNSNames netConf); simpl in *;
      try done; constructor. }
  split; [|split].
  - intros project service Hp Hs Hpne Hsne. rewrite Hp, Hs.
    rewrite (truthy_Some _ Hpne), (truthy_Some _ Hsne). simpl.
    change (show_undefined (Some project)) with project.
    change (show_undefined (Some service)) with service.
    rewrite !In_push. tauto.
  - intros Ha Hd. destruct (truthy _ && truthy _); [|by apply Hnd].
    by apply NoDup_push, NoDup_push, Hnd.
  - intros a. destruct (truthy _ && truthy _) eqn:Hboth; [|by left; apply Hsrc].
    apply andb_true_iff in Hboth as [Hp Hs].
    destruct (label (Some config) "com.docker.compose.project") as [project|];
      [|done].
    destruct (label (Some config) "com.docker.compose.service") as [service|];
      [|done].
    change (show_undefined (Some project)) with project.
    change (show_undefined (Some service)) with service.
    rewrite !In_push. intros [[Hk| ->]| ->].
    + left. by apply Hsrc.
    + right. by left.
    + right. right. by exists project, service.
Qed.

End UpdateFacts.

(** ** Properties of the self-update check *)

Module SelfCheckFacts.

Import Update SelfCheck.
Local Open Scope string_scope.

Lemma split_last_none c s :
  ~ In c (String.list_ascii_of_string s) -> split_last c s = None.
Proof.
  induction s as [|a s IH]; [done|]. simpl. intros Hnot.
  rewrite IH by tauto.
  destruct (Ascii.eqb_spec a c) as [->|]; [tauto|done].
Qed.

Lemma split_last_sep c l r :
  ~ In c (String.list_ascii_of_string r) ->
  split_last c (l ++ String c r) = Some (l, r).
Proof.
  intros Hnot. induction l as [|a l IH]; simpl.
  - rewrite (split_last_none c r Hnot). by rewrite Ascii.eqb_refl.
  - by rewrite IH.
Qed.

(** [RepoDigests] entries have the form [repository@digest]: the local
    digests are exactly the parts after the [@], in order. *)
Theorem local_digests_of_entries (entries : list (string * string)) :
  Forall (fun p => p.2 <> "" /\ ~ In "@"%char (String.list_ascii_of_string p.2)) entries ->
  local_digests (map (fun p => p.1 ++ String "@" p.2) entries) = map snd entries.
Proof.
  induction 1 as [|[repo dig] entries [Hne Hnot] _ IH]; [done|].
  simpl in *. unfold digest_of. rewrite (split_last_sep _ _ _ Hnot). simpl.
  unfold or_undefined, truthy. apply String.eqb_neq in Hne. rewrite Hne. simpl.
  by rewrite IH.
Qed.

Lemma local_digests_of_entries_witness :
  local_digests ["fnsys/dockhand@sha256:aaa"; "ghcr.io/fnsys/dockhand@sha256:bbb"]
  = ["sha256:aaa"; "sha256:bbb"].
Proof.
  apply (local_digests_of_entries
           [("fnsys/dockhand", "sha256:aaa"); ("ghcr.io/fnsys/dockhand", "sha256:bbb")]).
  repeat constructor; simpl; try discriminate; intuition discriminate.
Defined.

Lemma includes_head l d : includes l d = false -> head l <> Some d.
Proof.
  destruct l as [|x l]; [done|]. unfold includes. simpl.
  intros [Hx _]%orb_false_iff [= ->]. by rewrite String.eqb_refl in Hx.
Qed.




End SelfCheckFacts.
